(** * Data quality checker: validation, drift detection, reference store

    A shallow embedding of [model/data_quality.py] (class
    [DataQualityChecker]) and the properties its specification states.

    Python floats are binary64 values, taken here as Rocq's primitive
    floats, so that [ks_pvalue < 0.05] is the IEEE comparison the
    interpreter performs (false on NaN).  Exceptions are the left
    summand of a sum type; logging is a writer effect whose records are
    kept in emission order.  The routines of [scipy.stats] are not part
    of the repository: they are the fields of a record [scipy_stats],
    the counterpart of the module object [stats], and every fact about
    them that a theorem needs is a named, explicit premise.  The file
    system under the reference store is treated in the same way, as a
    record [file_library]. *)

From Stdlib Require Import Floats.PrimFloat Floats.FloatAxioms Numbers.Cyclic.Int63.Uint63.
From stdpp Require Import gmap strings list fin_maps pretty.

Set Default Proof Using "Type".
Set Warnings "-inexact-float".
Local Open Scope string_scope.
Local Open Scope list_scope.
Local Open Scope nat_scope.

(** ** Exceptions, log records and the effect monad *)

Inductive exn : Type :=
  | IndexError
  | ValueError
  | KeyError
  | FileNotFoundError
  | FileExistsError
  | OtherError (msg : string).

Definition result (A : Type) : Type := exn + A.

Definition Raise {A : Type} (e : exn) : result A := inl e.
Definition Return {A : Type} (a : A) : result A := inr a.

#[global] Instance result_ret : MRet result := λ A a, inr a.
#[global] Instance result_bind : MBind result := λ A B f m,
  match m with inl e => inl e | inr a => f a end.

(** The counts of [validation_result.statistics]; its [success_percent]
    is their quotient. *)
Record validation_statistics : Type := {
  evaluated_expectations : nat;
  successful_expectations : nat;
  unsuccessful_expectations : nat
}.

(** One constructor per log call of the module; the f-string arguments
    are kept as data instead of being rendered. *)
Inductive log_record : Type :=
  | InfoSuiteCreated
  | InfoTrainingPassed
  | InfoInferencePassed
  | WarnTrainingFailed (st : validation_statistics)
  | WarnInferenceFailed (st : validation_statistics)
  | ErrorValidation (e : exn)
  | WarnDrift (i : nat) (ks_pvalue : float)
  | ErrorDrift (e : exn)
  | InfoReferenceSaved (path : string)
  | ErrorSaveReference (e : exn)
  | InfoReferenceLoaded (path : string)
  | WarnReferenceNotFound (path : string)
  | ErrorLoadReference (e : exn).

(** A computation emits log records and then either raises or returns. *)
Definition Py (A : Type) : Type := list log_record * result A.

Definition py_bind {A B : Type} (f : A → Py B) (m : Py A) : Py B :=
  match m with
  | (l, inl e) => (l, inl e)
  | (l, inr a) => let '(l', r) := f a in (l ++ l', r)
  end.

#[global] Instance Py_ret : MRet Py := λ A a, ([], inr a).
#[global] Instance Py_bind : MBind Py := λ A B f m, py_bind f m.

Definition lift {A : Type} (r : result A) : Py A := ([], r).
Definition emit (r : log_record) : Py unit := ([r], inr tt).

(** [for i in range(...)] threading the loop-carried variables. *)
Fixpoint for_each {S : Type} (body : nat → S → Py S) (idx : list nat) (st : S) : Py S :=
  match idx with
  | [] => mret st
  | i :: idx' => st' ← body i st; for_each body idx' st'
  end.

(** ** numpy arrays *)

Inductive dtype : Type := float64 | float32 | int64.

#[global] Instance dtype_eq_dec : EqDecision dtype.
Proof. solve_decision. Defined.

(** One- and two-dimensional numeric arrays.  A two-dimensional array of
    shape [(n, d)] carries [d] and its [n] rows; the cells of a
    non-float64 array are held by their float value, only the tag tells
    the dtypes apart. *)
Inductive ndarray : Type :=
  | Array1 (dt : dtype) (data : list float)
  | Array2 (dt : dtype) (ncols : nat) (rows : list (list float)).

(** [a.shape[0]] *)
Definition shape0 (a : ndarray) : nat :=
  match a with
  | Array1 _ data => length data
  | Array2 _ _ rows => length rows
  end.

(** [a.shape[1]]: the shape tuple of a one-dimensional array has a single
    entry. *)
Definition shape1 (a : ndarray) : result nat :=
  match a with
  | Array1 _ _ => Raise IndexError
  | Array2 _ d _ => Return d
  end.

(** The cells of column [i], row by row. *)
Definition cells (rows : list (list float)) (i : nat) : list float :=
  map (λ row, nth i row 0%float) rows.

(** [a[:, i]] for [0 <= i]. *)
Definition column (a : ndarray) (i : nat) : result (list float) :=
  match a with
  | Array1 _ _ => Raise IndexError
  | Array2 _ d rows =>
      if decide (i < d) then Return (cells rows i)
      else Raise IndexError
  end.

(** [f"feature_{i}"] *)
Definition feature_name (i : nat) : string := "feature_" +:+ pretty i.

(** ** Drift detection *)

(** The two routines of [scipy.stats] the detector calls. *)
Record scipy_stats : Type := {
  ks_2samp : list float → list float → result (float * float);
  anderson_ksamp : list (list float) → result (float * list float * float)
}.

(** The value stored under [drift_details[f"feature_{i}"]]; [None] is
    Python's [None]. *)
Record feature_report : Type := {
  ks_statistic : float;
  ks_pvalue : float;
  ad_statistic : option float;
  ad_critical : option (list float);
  ad_significance : option float
}.

Definition drift_threshold : float := 0.05%float.

Section Detector.
Context (stats : scipy_stats).

(** The inner [try ... except:] around the Anderson-Darling call. *)
Definition anderson_or_none (reference_data current_data : ndarray) (i : nat)
  : option float * option (list float) * option float :=
  match
    (x ← column reference_data i;
     y ← column current_data i;
     anderson_ksamp stats [x; y])
  with
  | inr (ad_stat, ad_critical, ad_significance) =>
      (Some ad_stat, Some ad_critical, Some ad_significance)
  | inl _ => (None, None, None)
  end.

(** One iteration of the loop over the features; the loop-carried
    variables are [drift_detected] and [drift_details]. *)
Definition drift_step (reference_data current_data : ndarray) (i : nat)
    (st : bool * gmap string feature_report) : Py (bool * gmap string feature_report) :=
  let '(drift_detected, drift_details) := st in
  x ← lift (column reference_data i);
  y ← lift (column current_data i);
  '(ks_stat, ks_p) ← lift (ks_2samp stats x y);
  let '(ad_stat, ad_crit, ad_sig) := anderson_or_none reference_data current_data i in
  let drift_details :=
    <[feature_name i := {| ks_statistic := ks_stat; ks_pvalue := ks_p;
                           ad_statistic := ad_stat; ad_critical := ad_crit;
                           ad_significance := ad_sig |}]> drift_details in
  if PrimFloat.ltb ks_p drift_threshold
  then _ ← emit (WarnDrift i ks_p); mret (true, drift_details)
  else mret (drift_detected, drift_details).

(** The body of the outer [try]. *)
Definition detect_body (reference_data current_data : ndarray)
  : Py (bool * gmap string feature_report) :=
  d ← lift (shape1 reference_data);
  for_each (drift_step reference_data current_data) (seq 0 d) (false, ∅).

(** [DataQualityChecker.detect_data_drift]: the log it writes and the
    pair [(drift_detected, drift_details)] it returns. *)
Definition detect_data_drift (reference_data current_data : ndarray)
  : list log_record * (bool * gmap string feature_report) :=
  match detect_body reference_data current_data with
  | (l, inr r) => (l, r)
  | (l, inl e) => (l ++ [ErrorDrift e], (false, ∅))
  end.

End Detector.

(** ** pandas data frames *)

(** A one-dimensional array: the target vector, and a frame's column. *)
Record vector : Type := { v_dtype : dtype; v_values : list float }.

(** A frame: the length of its index and its columns in order. *)
Record DataFrame : Type := {
  index_len : nat;
  columns : list (string * vector)
}.

(** [pd.DataFrame(X, columns=names)] *)
Definition new_DataFrame (X : ndarray) (names : list string) : result DataFrame :=
  match X with
  | Array1 dt data =>
      if decide (length names = 1)
      then Return {| index_len := length data;
                     columns := zip names [{| v_dtype := dt; v_values := data |}] |}
      else Raise ValueError
  | Array2 dt d rows =>
      if decide (length names = d)
      then Return {| index_len := length rows;
                     columns := zip names
                       (map (λ i, {| v_dtype := dt; v_values := cells rows i |})
                            (seq 0 d)) |}
      else Raise ValueError
  end.

(** Assignment to a column label: an existing column is replaced in
    place, a new one goes last. *)
Fixpoint assign_column (key : string) (value : vector) (cols : list (string * vector))
  : list (string * vector) :=
  match cols with
  | [] => [(key, value)]
  | (k, v) :: cols' =>
      if decide (k = key) then (key, value) :: cols'
      else (k, v) :: assign_column key value cols'
  end.

(** Reindexing a column of an empty frame to [n] labels fills it with
    NaN, which an integer column can only hold as float64. *)
Definition reindex_empty (n : nat) (v : vector) : vector :=
  {| v_dtype := match v_dtype v with int64 => float64 | dt => dt end;
     v_values := replicate n PrimFloat.nan |}.

(** [df[key] = value] for a one-dimensional [value]: a frame with an
    empty index takes over the index of a non-empty value; otherwise the
    lengths must agree. *)
Definition set_item (df : DataFrame) (key : string) (value : vector) : result DataFrame :=
  let n := length (v_values value) in
  if decide (index_len df = 0 ∧ 0 < n)
  then Return {| index_len := n;
                 columns := assign_column key value
                              (map (λ kv, (kv.1, reindex_empty n kv.2)) (columns df)) |}
  else if decide (n = index_len df)
  then Return {| index_len := index_len df;
                 columns := assign_column key value (columns df) |}
  else Raise ValueError.

Definition column_names (df : DataFrame) : list string := map fst (columns df).

(** [df[name]] *)
Definition get_column (df : DataFrame) (name : string) : result vector :=
  match list_find (λ kv, kv.1 = name) (columns df) with
  | Some (_, (_, v)) => Return v
  | None => Raise KeyError
  end.

(** ** Great Expectations *)

(** Values of an expectation's keyword arguments. *)
Inductive kwarg : Type :=
  | KInt (z : Z)
  | KStr (s : string)
  | KList (l : list string).

#[global] Instance kwarg_eq_dec : EqDecision kwarg.
Proof. solve_decision. Defined.

Record ExpectationConfiguration : Type := {
  expectation_type : string;
  kwargs : gmap string kwarg
}.

Record ExpectationSuite : Type := {
  expectation_suite_name : string;
  expectations : list ExpectationConfiguration
}.

(** [suite.add_expectation(cfg)]: the configuration goes last. *)
Definition add_expectation (cfg : ExpectationConfiguration) (suite : ExpectationSuite)
  : ExpectationSuite :=
  {| expectation_suite_name := expectation_suite_name suite;
     expectations := expectations suite ++ [cfg] |}.

Definition kwarg_int (cfg : ExpectationConfiguration) (key : string) : result Z :=
  match kwargs cfg !! key with Some (KInt z) => Return z | _ => Raise KeyError end.
Definition kwarg_str (cfg : ExpectationConfiguration) (key : string) : result string :=
  match kwargs cfg !! key with Some (KStr s) => Return s | _ => Raise KeyError end.
Definition kwarg_list (cfg : ExpectationConfiguration) (key : string) : result (list string) :=
  match kwargs cfg !! key with Some (KList l) => Return l | _ => Raise KeyError end.

Definition dtype_name (dt : dtype) : string :=
  match dt with float64 => "float64" | float32 => "float32" | int64 => "int64" end.

(** An integer bound as the float it is compared as. *)
Definition float_of_Z (z : Z) : float :=
  match z with
  | Z0 => 0%float
  | Zpos _ => PrimFloat.of_uint63 (Uint63.of_Z z)
  | Zneg _ => PrimFloat.opp (PrimFloat.of_uint63 (Uint63.of_Z (- z)))
  end.

(** pandas' [isnull] on a float cell. *)
Definition is_null (x : float) : bool := PrimFloat.is_nan x.

Definition value_between (lo hi : Z) (x : float) : bool :=
  PrimFloat.leb (float_of_Z lo) x && PrimFloat.leb x (float_of_Z hi).

(** The six expectations the suite uses, by their documented meaning on
    a pandas dataset.  Column-map expectations leave null cells out of
    the cells they test. *)
Definition run_expectation (df : DataFrame) (cfg : ExpectationConfiguration) : result bool :=
  let ty := expectation_type cfg in
  if decide (ty = "expect_table_row_count_to_be_between") then
    lo ← kwarg_int cfg "min_value";
    hi ← kwarg_int cfg "max_value";
    mret (bool_decide (lo ≤ Z.of_nat (index_len df) ≤ hi)%Z)
  else if decide (ty = "expect_table_columns_to_match_ordered_list") then
    column_list ← kwarg_list cfg "column_list";
    mret (bool_decide (column_names df = column_list))
  else if decide (ty = "expect_column_to_exist") then
    c ← kwarg_str cfg "column";
    mret (bool_decide (c ∈ column_names df))
  else if decide (ty = "expect_column_values_to_be_of_type") then
    c ← kwarg_str cfg "column";
    type_ ← kwarg_str cfg "type_";
    v ← get_column df c;
    mret (bool_decide (dtype_name (v_dtype v) = type_))
  else if decide (ty = "expect_column_values_to_not_be_null") then
    c ← kwarg_str cfg "column";
    v ← get_column df c;
    mret (forallb (λ x, negb (is_null x)) (v_values v))
  else if decide (ty = "expect_column_values_to_be_between") then
    c ← kwarg_str cfg "column";
    lo ← kwarg_int cfg "min_value";
    hi ← kwarg_int cfg "max_value";
    v ← get_column df c;
    mret (forallb (λ x, is_null x || value_between lo hi x) (v_values v))
  else Raise (OtherError "unknown expectation").

(** With [catch_exceptions] left at its default, an expectation that
    raises counts as failed. *)
Definition expectation_succeeds (df : DataFrame) (cfg : ExpectationConfiguration) : bool :=
  match run_expectation df cfg with
  | inr b => b
  | inl _ => false
  end.

(** The two attributes of a validation result the checker reads. *)
Record ValidationResult : Type := {
  success : bool;
  statistics : validation_statistics
}.

(** [PandasDataset(df, expectation_suite=suite).validate()]: every
    expectation of the suite is evaluated, and the run succeeds when
    all of them do. *)
Definition validate (df : DataFrame) (suite : ExpectationSuite) : ValidationResult :=
  let outcomes := map (expectation_succeeds df) (expectations suite) in
  let ok := length (filter (λ b, b = true) outcomes) in
  {| success := forallb id outcomes;
     statistics := {| evaluated_expectations := length outcomes;
                      successful_expectations := ok;
                      unsuccessful_expectations := length outcomes - ok |} |}.

(** ** The checker and its expectation suite *)

(** The four expectations added for feature [i] by one iteration of the
    loop of [_create_expectation_suite]. *)
Definition add_feature_expectations (suite : ExpectationSuite) (i : nat) : ExpectationSuite :=
  let suite := add_expectation
    {| expectation_type := "expect_column_to_exist";
       kwargs := {[ "column" := KStr (feature_name i) ]} |} suite in
  let suite := add_expectation
    {| expectation_type := "expect_column_values_to_be_of_type";
       kwargs := {[ "column" := KStr (feature_name i); "type_" := KStr "float64" ]} |} suite in
  let suite := add_expectation
    {| expectation_type := "expect_column_values_to_not_be_null";
       kwargs := {[ "column" := KStr (feature_name i) ]} |} suite in
  add_expectation
    {| expectation_type := "expect_column_values_to_be_between";
       kwargs := {[ "column" := KStr (feature_name i);
                    "min_value" := KInt (-10); "max_value" := KInt 10 ]} |} suite.

(** [DataQualityChecker._create_expectation_suite]: the suite it stores
    in [self.expectation_suite]. *)
Definition _create_expectation_suite : ExpectationSuite :=
  let suite := {| expectation_suite_name := "data_quality_suite"; expectations := [] |} in
  let suite := add_expectation
    {| expectation_type := "expect_table_row_count_to_be_between";
       kwargs := {[ "min_value" := KInt 1; "max_value" := KInt 10000 ]} |} suite in
  let suite := add_expectation
    {| expectation_type := "expect_table_columns_to_match_ordered_list";
       kwargs := {[ "column_list" :=
                      KList ["feature_0"; "feature_1"; "feature_2"; "feature_3"] ]} |} suite in
  foldl add_feature_expectations suite (seq 0 4).

Record DataQualityChecker : Type := {
  reference_data_path : option string;
  expectation_suite : ExpectationSuite
}.

(** [DataQualityChecker.__init__] *)
Definition __init__ (reference_data_path : option string) : list log_record * DataQualityChecker :=
  ([InfoSuiteCreated],
   {| reference_data_path := reference_data_path;
      expectation_suite := _create_expectation_suite |}).

(** ** Validation *)

Section Validator.
Context (self : DataQualityChecker).

(** The body of the [try] of [validate_training_data]. *)
Definition validate_training_body (X : ndarray) (y : vector) : Py bool :=
  d ← lift (shape1 X);
  df ← lift (new_DataFrame X (map feature_name (seq 0 d)));
  df ← lift (set_item df "target" y);
  let validation_result := validate df (expectation_suite self) in
  if success validation_result
  then _ ← emit InfoTrainingPassed; mret true
  else _ ← emit (WarnTrainingFailed (statistics validation_result)); mret false.

Definition validate_training_data (X : ndarray) (y : vector) : list log_record * bool :=
  match validate_training_body X y with
  | (l, inr b) => (l, b)
  | (l, inl e) => (l ++ [ErrorValidation e], false)
  end.

(** The body of the [try] of [validate_inference_data]. *)
Definition validate_inference_body (X : ndarray) : Py bool :=
  d ← lift (shape1 X);
  df ← lift (new_DataFrame X (map feature_name (seq 0 d)));
  let validation_result := validate df (expectation_suite self) in
  if success validation_result
  then _ ← emit InfoInferencePassed; mret true
  else _ ← emit (WarnInferenceFailed (statistics validation_result)); mret false.

Definition validate_inference_data (X : ndarray) : list log_record * bool :=
  match validate_inference_body X with
  | (l, inr b) => (l, b)
  | (l, inl e) => (l ++ [ErrorValidation e], false)
  end.

End Validator.

(** ** Reference store *)

(** What the reference store calls outside the program: the operating
    system through [os] and numpy's file routines.  [FS] is the state of
    the file system.  Nothing is fixed about it here: how a path is
    resolved, which directories exist, which errors the system raises
    and what a failed call leaves behind are the library's, and a
    statement that needs a fact about them names it as a premise.  A
    routine that writes returns the state it leaves, also when it
    raises.  Files that hold something other than one numeric array make
    [read_npy] raise. *)
Record file_library (FS : Type) : Type := {
  (** [os.makedirs(name, exist_ok=True)] on a non-empty [name] *)
  makedirs : FS → string → result unit * FS;
  (** writing an array in [.npy] format to the file of that exact name *)
  write_npy : FS → string → ndarray → result unit * FS;
  (** [os.path.exists(path)] *)
  path_exists : FS → string → bool;
  (** reading the array a [.npy] file holds *)
  read_npy : FS → string → result ndarray
}.
Arguments makedirs {FS} _ _ _.
Arguments write_npy {FS} _ _ _ _.
Arguments path_exists {FS} _ _ _.
Arguments read_npy {FS} _ _ _.

(** A flat store of arrays by file name, used as the state of the
    stand-in library below and threaded through the training script. *)
Abbreviation filesystem := (gmap string ndarray).

Definition is_sep (c : Ascii.ascii) : bool := bool_decide (c = Ascii.ascii_of_nat 47).

Fixpoint drop_seps (l : list Ascii.ascii) : list Ascii.ascii :=
  match l with
  | [] => []
  | c :: l' => if is_sep c then drop_seps l' else l
  end.

Fixpoint drop_until_sep (l : list Ascii.ascii) : list Ascii.ascii :=
  match l with
  | [] => []
  | c :: l' => if is_sep c then l else drop_until_sep l'
  end.

(** [os.path.dirname(p)] of [posixpath]: the part up to the last
    separator, without its trailing separators unless it consists of
    separators only. *)
Definition os_path_dirname (p : string) : string :=
  let head := reverse (drop_until_sep (reverse (String.list_ascii_of_string p))) in
  let head :=
    if bool_decide (head ≠ []) && negb (forallb is_sep head)
    then reverse (drop_seps (reverse head))
    else head in
  String.string_of_list_ascii head.

(** [s.endswith(suffix)] *)
Definition endswith (s suffix : string) : bool :=
  let l := String.list_ascii_of_string s in
  let k := String.list_ascii_of_string suffix in
  bool_decide (length k ≤ length l)%nat && bool_decide (drop (length l - length k) l = k).

(** [np.save(file, arr)] appends the extension when the name lacks it. *)
Definition npy_file (file : string) : string :=
  if endswith file ".npy" then file else file +:+ ".npy".

Section ReferenceStore.
Context {FS : Type} (io : file_library FS).

(** [os.makedirs(name, exist_ok=True)]: the empty name is rejected
    before anything is created. *)
Definition os_makedirs (fs : FS) (name : string) : result unit * FS :=
  if decide (name = "") then (Raise FileNotFoundError, fs)
  else makedirs io fs name.

(** [np.save(file, arr)] *)
Definition np_save (fs : FS) (file : string) (arr : ndarray) : result unit * FS :=
  write_npy io fs (npy_file file) arr.

(** [os.path.exists(path)] *)
Definition os_path_exists (fs : FS) (path : string) : bool :=
  path_exists io fs path.

(** [np.load(file)] *)
Definition np_load (fs : FS) (file : string) : result ndarray :=
  read_npy io fs file.

(** [save_reference_data]: the log and the file system it leaves. *)
Definition save_reference_data (data : ndarray) (path : string) (fs : FS)
  : list log_record * FS :=
  match os_makedirs fs (os_path_dirname path) with
  | (inl e, fs) => ([ErrorSaveReference e], fs)
  | (inr _, fs) =>
      match np_save fs path data with
      | (inl e, fs) => ([ErrorSaveReference e], fs)
      | (inr _, fs) => ([InfoReferenceSaved path], fs)
      end
  end.

(** [load_reference_data]: the log and the array, or [None]. *)
Definition load_reference_data (path : string) (fs : FS)
  : list log_record * option ndarray :=
  if os_path_exists fs path then
    match np_load fs path with
    | inr data => ([InfoReferenceLoaded path], Some data)
    | inl e => ([ErrorLoadReference e], None)
    end
  else ([WarnReferenceNotFound path], None).

End ReferenceStore.

(** ** Vocabulary of the statements *)

(** A feature is flagged when its p-value is below the threshold. *)
Definition flagged (p : float) : bool := PrimFloat.ltb p drift_threshold.

(** What the Kolmogorov-Smirnov call of iteration [i] yields. *)
Definition ks_outcome (stats : scipy_stats) (reference_data current_data : ndarray) (i : nat)
  : result (float * float) :=
  x ← column reference_data i;
  y ← column current_data i;
  ks_2samp stats x y.

Definition ks_or_nan (stats : scipy_stats) (reference_data current_data : ndarray) (i : nat)
  : float * float :=
  match ks_outcome stats reference_data current_data i with
  | inr r => r
  | inl _ => (PrimFloat.nan, PrimFloat.nan)
  end.

(** The entry iteration [i] stores, given its Kolmogorov-Smirnov result. *)
Definition expected_report (stats : scipy_stats) (reference_data current_data : ndarray)
    (i : nat) (ks : float * float) : feature_report :=
  let '(ad_stat, ad_crit, ad_sig) := anderson_or_none stats reference_data current_data i in
  {| ks_statistic := ks.1; ks_pvalue := ks.2;
     ad_statistic := ad_stat; ad_critical := ad_crit; ad_significance := ad_sig |}.

(** The warnings iteration [i] logs. *)
Definition expected_warning (i : nat) (ks : float * float) : list log_record :=
  if flagged ks.2 then [WarnDrift i ks.2] else [].

(** The loop-carried variables after iteration [i], given the
    Kolmogorov-Smirnov results [ks]. *)
Definition step_state (stats : scipy_stats) (reference_data current_data : ndarray)
    (ks : nat → float * float) (i : nat)
    (st : bool * gmap string feature_report) : bool * gmap string feature_report :=
  (if flagged (ks i).2 then true else st.1,
   <[feature_name i := expected_report stats reference_data current_data i (ks i)]> st.2).

(** The current batch cut down to its first [d] columns. *)
Definition first_columns (d : nat) (a : ndarray) : ndarray :=
  match a with
  | Array1 dt data => Array1 dt data
  | Array2 dt _ rows => Array2 dt d (map (take d) rows)
  end.

(** No cell is NaN. *)
Definition nan_free (rows : list (list float)) : Prop :=
  Forall (Forall (λ x, PrimFloat.is_nan x = false)) rows.

(** *** Facts about [scipy.stats] that statements rely on *)

(** The test is computed for any two non-empty samples. *)
Definition ks_defined_on_nonempty (stats : scipy_stats) : Prop :=
  ∀ x y, x ≠ [] → y ≠ [] → ∃ r, ks_2samp stats x y = Return r.

(** An empty sample is rejected with an exception. *)
Definition ks_rejects_empty (stats : scipy_stats) : Prop :=
  ∀ x y, x = [] ∨ y = [] → ∃ e, ks_2samp stats x y = Raise e.

(** A non-empty sample without NaN compared with itself has statistic 0
    and p-value 1. *)
Definition ks_identical_samples (stats : scipy_stats) : Prop :=
  ∀ x, x ≠ [] → Forall (λ v, PrimFloat.is_nan v = false) x →
       ks_2samp stats x x = Return (0%float, 1%float).

(** A stand-in for [scipy.stats] with these three properties, in the
    manner of the mocks of the test suite: it compares the first cells
    of the two samples only. *)
Definition stub_stats : scipy_stats :=
  {| ks_2samp := λ x y,
       match x, y with
       | [], _ | _, [] => Raise ValueError
       | a :: _, b :: _ =>
           if PrimFloat.eqb a b then Return (0%float, 1%float)
           else Return (1%float, 0.01%float)
       end;
     anderson_ksamp := λ samples,
       if forallb (λ s, bool_decide (2 ≤ length s)) samples
       then Return (0%float, [0.325; 1.226; 1.961]%float, 0.25%float)
       else Raise ValueError |}.

(** *** The constraints of the default schema *)

Definition row_count_between (lo hi : Z) : ExpectationConfiguration :=
  {| expectation_type := "expect_table_row_count_to_be_between";
     kwargs := {[ "min_value" := KInt lo; "max_value" := KInt hi ]} |}.

Definition columns_match_ordered_list (names : list string) : ExpectationConfiguration :=
  {| expectation_type := "expect_table_columns_to_match_ordered_list";
     kwargs := {[ "column_list" := KList names ]} |}.

Definition column_exists (c : string) : ExpectationConfiguration :=
  {| expectation_type := "expect_column_to_exist";
     kwargs := {[ "column" := KStr c ]} |}.

Definition column_of_type (c type_ : string) : ExpectationConfiguration :=
  {| expectation_type := "expect_column_values_to_be_of_type";
     kwargs := {[ "column" := KStr c; "type_" := KStr type_ ]} |}.

Definition column_not_null (c : string) : ExpectationConfiguration :=
  {| expectation_type := "expect_column_values_to_not_be_null";
     kwargs := {[ "column" := KStr c ]} |}.

Definition column_between (c : string) (lo hi : Z) : ExpectationConfiguration :=
  {| expectation_type := "expect_column_values_to_be_between";
     kwargs := {[ "column" := KStr c; "min_value" := KInt lo; "max_value" := KInt hi ]} |}.

(** The four constraints on one feature column, in suite order. *)
Definition feature_constraints (c : string) : list ExpectationConfiguration :=
  [column_exists c; column_of_type c "float64"; column_not_null c;
   column_between c (-10) 10].

(** A cell the schema accepts: not null and within [-10, 10]. *)
Definition cell_ok (x : float) : Prop :=
  is_null x = false ∧ value_between (-10) 10 x = true.

(** The checker as its constructor leaves it. *)
Definition default_checker : DataQualityChecker := (__init__ None).2.

(** *** Sample batches *)

(** A batch of two rows and four features that the schema accepts, its
    target vector, the same batch with 15 in [feature_0], and a ragged
    batch, which numpy holds as a one-dimensional array. *)
Definition sample_batch : ndarray :=
  Array2 float64 4 [[0; 1; -1; 0.5]; [2; -2; 0.25; 10]]%float.
Definition sample_target : vector :=
  {| v_dtype := int64; v_values := [0; 1]%float |}.
Definition sample_out_of_range : ndarray :=
  Array2 float64 4 [[15; 1; -1; 0.5]; [2; -2; 0.25; 10]]%float.
Definition sample_ragged : ndarray := Array1 float64 [0; 1]%float.

(** A reference of two features and a current batch whose second
    feature has moved. *)
Definition sample_reference : list (list float) := [[0; 1]; [0.5; 1.5]; [1; 2]]%float.
Definition sample_current : list (list float) := [[0; 6]; [0.5; 6.5]]%float.

(** The current batch with its second column missing, and with one
    column more. *)
Definition sample_narrow : list (list float) := [[5]; [5.5]]%float.
Definition sample_wide : list (list float) := [[0; 1; 9]; [0.5; 1.5; 9.5]]%float.

(** *** The mocked library of the test suite *)

(** The return values [test_detect_data_drift] gives to the two
    routines. *)
Definition test_mock_stats : scipy_stats :=
  {| ks_2samp := λ _ _, Return (0.1%float, 0.05%float);
     anderson_ksamp := λ _, Return (1%float, [0.5%float], 0.05%float) |}.

(** *** A library that answers NaN *)

(** A second stand-in for [scipy.stats]: where a sample is empty or
    holds a NaN, the Kolmogorov-Smirnov routine returns NaN for both
    fields instead of raising; elsewhere it is the first stand-in. *)
Definition nan_stats : scipy_stats :=
  {| ks_2samp := λ x y,
       match x, y with
       | [], _ | _, [] => Return (PrimFloat.nan, PrimFloat.nan)
       | _ :: _, _ :: _ =>
           if existsb PrimFloat.is_nan (x ++ y)
           then Return (PrimFloat.nan, PrimFloat.nan)
           else ks_2samp stub_stats x y
       end;
     anderson_ksamp := anderson_ksamp stub_stats |}.

(** The entry of a feature both of whose tests gave nothing. *)
Definition nan_report : feature_report :=
  {| ks_statistic := PrimFloat.nan; ks_pvalue := PrimFloat.nan;
     ad_statistic := None; ad_critical := None; ad_significance := None |}.

(** The sample reference with its first cell missing. *)
Definition sample_with_nan : list (list float) :=
  [[PrimFloat.nan; 1]; [0.5; 1.5]; [1; 2]]%float.

(** *** Facts about the file library that statements rely on *)

(** Once an array has been written to a file without error, the file
    exists and reading it gives the array back. *)
Definition reads_back_what_was_written {FS : Type} (io : file_library FS) : Prop :=
  ∀ fs fs' file arr,
    write_npy io fs file arr = (Return tt, fs') →
    path_exists io fs' file = true ∧ read_npy io fs' file = Return arr.

(** A stand-in for the file library with this property: files by name
    in a flat store, every directory creatable unless a file has its
    name. *)
Definition flat_store : file_library filesystem :=
  {| makedirs := λ fs name,
       if decide (is_Some (fs !! name)) then (Raise FileExistsError, fs)
       else (Return tt, fs);
     write_npy := λ fs file arr, (Return tt, <[file := arr]> fs);
     path_exists := λ fs path, bool_decide (is_Some (fs !! path));
     read_npy := λ fs file,
       match fs !! file with
       | Some arr => Return arr
       | None => Raise FileNotFoundError
       end |}.

(** *** Acceptance of a cell, as a test *)

Definition cell_okb (x : float) : bool :=
  negb (is_null x) && value_between (-10) 10 x.

(** * The programs around the checker *)

(** ** The training script, [model/train.py] *)

Module Train.

(** The records of the script's logger, and those of the checker's. *)
Inductive log_entry : Type :=
  | Starting
  | Checker (r : log_record)
  | Generated (samples features : nat)
  | Aborting
  | Later (msg : string).

(** What [main] does after validation has passed: split, fit, evaluate,
    write the model, its version, the reference data and the metrics,
    and return.  It stands for code that depends on scikit-learn. *)
Definition continuation : Type :=
  DataQualityChecker → ndarray → vector → filesystem →
  list log_entry * result bool * filesystem.

(** [main], given the dataset [make_classification] returns. *)
Definition main (dataset : ndarray * vector) (rest : continuation) (fs : filesystem)
  : list log_entry * result bool * filesystem :=
  let '(l0, dq_checker) := __init__ None in
  let '(X, y) := dataset in
  let started := [Starting] ++ map Checker l0 in
  match shape1 X with
  | inl e => (started, Raise e, fs)
  | inr features =>
      let '(l1, valid) := validate_training_data dq_checker X y in
      let validated := started ++ [Generated (shape0 X) features] ++ map Checker l1 in
      if valid
      then let '(l2, r, fs') := rest dq_checker X y fs in (validated ++ l2, r, fs')
      else (validated ++ [Aborting], Return false, fs)
  end.

(** The script run as a program: its exit status is 1 when [main]
    returns [False], and when an exception escapes. *)
Definition script (dataset : ndarray * vector) (rest : continuation) (fs : filesystem)
  : list log_entry * Z * filesystem :=
  match main dataset rest fs with
  | (l, inr true, fs') => (l, 0%Z, fs')
  | (l, inr false, fs') => (l, 1%Z, fs')
  | (l, inl _, fs') => (l, 1%Z, fs')
  end.

End Train.

(** ** The webhook relay, [scripts/drift-webhook.py] *)

Module Webhook.

(** Strings hold one character per code point below 256. *)

(** [str.isspace] on such a character. *)
Definition is_space (c : Ascii.ascii) : bool :=
  let n := Ascii.nat_of_ascii c in
  bool_decide (9 ≤ n ≤ 13) || bool_decide (28 ≤ n ≤ 32)
  || bool_decide (n = 133) || bool_decide (n = 160).

Definition is_newline (c : Ascii.ascii) : bool := bool_decide (c = Ascii.ascii_of_nat 10).

Fixpoint lstrip (l : list Ascii.ascii) : list Ascii.ascii :=
  match l with
  | [] => []
  | c :: l' => if is_space c then lstrip l' else l
  end.

(** [s.strip()] *)
Definition strip (l : list Ascii.ascii) : list Ascii.ascii :=
  reverse (lstrip (reverse (lstrip l))).

(** [s.split("\n")]: at least one piece, also for the empty string. *)
Fixpoint split_newline (l : list Ascii.ascii) : list (list Ascii.ascii) :=
  match l with
  | [] => [[]]
  | c :: l' =>
      if is_newline c then [] :: split_newline l'
      else match split_newline l' with
           | [] => [[c]]
           | piece :: pieces => (c :: piece) :: pieces
           end
  end.

(** ["\n".join(pieces)] *)
Fixpoint join_newline (pieces : list (list Ascii.ascii)) : list Ascii.ascii :=
  match pieces with
  | [] => []
  | [piece] => piece
  | piece :: pieces' => piece ++ Ascii.ascii_of_nat 10 :: join_newline pieces'
  end.

(** [result.stdout.strip().split("\n")] *)
Definition response_lines (stdout : string) : list (list Ascii.ascii) :=
  split_newline (strip (String.list_ascii_of_string stdout)).

(** [response_lines[-1]] *)
Definition http_code (stdout : string) : string :=
  String.string_of_list_ascii (List.last (response_lines stdout) []).

(** ["\n".join(response_lines[:-1])] *)
Definition response_body (stdout : string) : string :=
  String.string_of_list_ascii (join_newline (removelast (response_lines stdout))).

Inductive exc : Type :=
  | JSONDecodeError
  | UnicodeDecodeError
  | ValueError
  | AttributeError
  | OSError.

(** A decoded JSON document; an object keeps its members in a list,
    each key once. *)
#[warnings="-register-all"]
Inductive json : Type :=
  | JNull
  | JBool (b : bool)
  | JNumber (literal : string)
  | JString (s : string)
  | JArray (items : list json)
  | JObject (members : list (string * json)).

(** [data.get(key, default)]; only a [dict] has the method. *)
Definition get (data : json) (key : string) (default : json) : exc + json :=
  match data with
  | JObject members =>
      match list_find (λ kv, kv.1 = key) members with
      | Some (_, (_, v)) => inr v
      | None => inr default
      end
  | _ => inl AttributeError
  end.

Record CompletedProcess : Type := {
  returncode : Z;
  stdout : string;
  stderr : string
}.

(** The built-in and library calls of the script. *)
Record library : Type := {
  int : string → exc + Z;
  decode_utf8 : string → exc + string;
  json_loads : string → exc + json;
  json_dumps : json → string;
  subprocess_run : list string → exc + CompletedProcess
}.

Inductive log_entry : Type :=
  | InvalidJSON
  | UnexpectedEvent (event_type : json)
  | DriftDetected (payload : json)
  | MissingConfiguration
  | Triggering (api_url : string)
  | Triggered
  | ResponseInfo (body : string)
  | TriggerFailed (http_code : string)
  | ResponseError (body : string)
  | CurlFailed (stderr : string)
  | TriggerError (e : exc)
  | ProcessingError (e : exc).

(** What the handler sends to the client, call by call; the bytes
    written are the text of a JSON document. *)
Inductive action : Type :=
  | send_response (code : nat)
  | send_header (keyword value : string)
  | end_headers
  | write (body : json).

Definition respond (code : nat) (body : json) : list action :=
  [send_response code; send_header "Content-type" "application/json";
   end_headers; write body].

Definition invalid_json_body : json := JObject [("error", JString "Invalid JSON")].
Definition expected_drift_body : json := JObject [("error", JString "Expected drift event")].
Definition internal_error_body : json := JObject [("error", JString "Internal server error")].
Definition success_body : json :=
  JObject [("status", JString "success"); ("message", JString "Pipeline triggered")].
Definition failure_body : json :=
  JObject [("status", JString "error"); ("message", JString "Failed to trigger pipeline")].

(** The command line of the request to the pipeline trigger. *)
Definition curl_command (lib : library) (gitlab_url project_id trigger_token branch : string)
    (drift_payload : json) : list string :=
  let api_url := gitlab_url +:+ "/api/v4/projects/" +:+ project_id +:+ "/trigger/pipeline" in
  let payload :=
    JObject [("token", JString trigger_token);
             ("ref", JString branch);
             ("variables[DRIFT_DETECTED]", JString "true");
             ("variables[DRIFT_PAYLOAD]", JString (json_dumps lib drift_payload))] in
  ["curl"; "-s"; "-w"; "%{http_code}"; "-X"; "POST"; api_url;
   "-H"; "Content-Type: application/json"; "-d"; json_dumps lib payload].

(** [os.getenv(key, default)] *)
Definition getenv (env : gmap string string) (key default : string) : string :=
  match env !! key with Some v => v | None => default end.

(** A variable is usable when it is set and not empty. *)
Definition configured (env : gmap string string) (key : string) : option string :=
  match env !! key with
  | Some v => if decide (v = "") then None else Some v
  | None => None
  end.

(** [trigger_retrain_pipeline]: its log, the commands it ran, and its
    result. *)
Definition trigger_retrain_pipeline (lib : library) (env : gmap string string)
    (drift_payload : json) : list log_entry * list (list string) * bool :=
  let gitlab_url := getenv env "GITLAB_URL" "https://gitlab.com" in
  let branch := getenv env "GITLAB_BRANCH" "main" in
  match configured env "GITLAB_PROJECT_ID", configured env "GITLAB_TRIGGER_TOKEN" with
  | Some project_id, Some trigger_token =>
      let api_url :=
        gitlab_url +:+ "/api/v4/projects/" +:+ project_id +:+ "/trigger/pipeline" in
      let cmd := curl_command lib gitlab_url project_id trigger_token branch drift_payload in
      match subprocess_run lib cmd with
      | inl e => ([Triggering api_url; TriggerError e], [cmd], false)
      | inr result =>
          if decide (returncode result = 0%Z) then
            if decide (http_code (stdout result) = "201")
            then ([Triggering api_url; Triggered;
                   ResponseInfo (response_body (stdout result))], [cmd], true)
            else ([Triggering api_url; TriggerFailed (http_code (stdout result));
                   ResponseError (response_body (stdout result))], [cmd], false)
          else ([Triggering api_url; CurlFailed (stderr result)], [cmd], false)
      end
  | _, _ => ([MissingConfiguration], [], false)
  end.

(** The request as the handler reads it: the [Content-Length] header, if
    any, and the bytes the client sent. *)
Record request : Type := {
  content_length : option string;
  rfile : string
}.

(** [rfile.read(n)]: the first [n] bytes sent, all of them for a
    negative [n]. *)
Definition read (stream : string) (n : Z) : string :=
  if decide (n < 0)%Z then stream else String.substring 0 (Z.to_nat n) stream.

Record handled : Type := {
  log : list log_entry;
  commands : list (list string);
  response : list action
}.

(** The statements of [do_POST] up to the parsed document. *)
Definition read_document (lib : library) (req : request) : exc + json :=
  match
    match content_length req with
    | Some s => int lib s
    | None => inr 0%Z
    end
  with
  | inl e => inl e
  | inr n =>
      match decode_utf8 lib (read (rfile req) n) with
      | inl e => inl e
      | inr text => json_loads lib text
      end
  end.

(** [event_type != "drift"], negated. *)
Definition is_drift (event_type : json) : bool :=
  match event_type with
  | JString s => bool_decide (s = "drift")
  | _ => false
  end.

Definition internal_error (e : exc) : handled :=
  {| log := [ProcessingError e]; commands := [];
     response := respond 500 internal_error_body |}.

(** [do_POST] *)
Definition do_POST (lib : library) (env : gmap string string) (req : request) : handled :=
  match read_document lib req with
  | inl JSONDecodeError =>
      {| log := [InvalidJSON]; commands := [];
         response := respond 400 invalid_json_body |}
  | inl e => internal_error e
  | inr data =>
      match get data "event" (JString "") with
      | inl e => internal_error e
      | inr event_type =>
          if is_drift event_type then
            match get data "payload" (JObject []) with
            | inl e => internal_error e
            | inr payload =>
                let '(l, cmds, success) := trigger_retrain_pipeline lib env payload in
                {| log := DriftDetected payload :: l; commands := cmds;
                   response :=
                     if success then respond 200 success_body
                     else respond 500 failure_body |}
            end
          else
            {| log := [UnexpectedEvent event_type]; commands := [];
               response := respond 400 expected_drift_body |}
      end
  end.

(** The command line as [argparse] hands it over: an option that was
    not given is [None]. *)
Record arguments : Type := {
  host : option string;
  port : option Z;
  gitlab_url : option string;
  project_id : option string;
  trigger_token : option string;
  branch : option string
}.

(** [if value: os.environ[key] = value] *)
Definition export (key : string) (value : option string) (env : gmap string string)
  : gmap string string :=
  match value with
  | Some v => if decide (v = "") then env else <[key := v]> env
  | None => env
  end.

(** The environment after [main] has copied the arguments into it;
    [--branch] has the default ["main"]. *)
Definition update_environment (args : arguments) (env : gmap string string)
  : gmap string string :=
  let env := export "GITLAB_URL" (gitlab_url args) env in
  let env := export "GITLAB_PROJECT_ID" (project_id args) env in
  let env := export "GITLAB_TRIGGER_TOKEN" (trigger_token args) env in
  export "GITLAB_BRANCH" (Some (default "main" (branch args))) env.

(** [main] up to the start of the server: the exit status 1 when a
    required variable is missing, else the environment the handler
    runs in. *)
Definition main (args : arguments) (env : gmap string string) : Z + gmap string string :=
  let env := update_environment args env in
  let missing_vars :=
    filter (λ var, configured env var = None)
           ["GITLAB_PROJECT_ID"; "GITLAB_TRIGGER_TOKEN"] in
  if decide (missing_vars = []) then inr env else inl 1%Z.

End Webhook.

(** *** Stand-ins for the webhook's library calls *)

(** A drift event as the inference service posts it. *)
Definition sample_event : Webhook.json :=
  Webhook.JObject [("event", Webhook.JString "drift");
                   ("payload", Webhook.JObject [("p_val", Webhook.JNumber "0.01")])].

(** Library calls that read the whole body, take the text [event] for
    the drift event and [list] for an empty JSON array, and let the
    command succeed with the output [out]. *)
Definition stub_library (out : string) : Webhook.library :=
  {| Webhook.int := λ _, inr (-1)%Z;
     Webhook.decode_utf8 := λ body, inr body;
     Webhook.json_loads := λ text,
       if decide (text = "event") then inr sample_event
       else if decide (text = "list") then inr (Webhook.JArray [])
       else inl Webhook.JSONDecodeError;
     Webhook.json_dumps := λ _, "{}";
     Webhook.subprocess_run := λ _,
       inr {| Webhook.returncode := 0; Webhook.stdout := out; Webhook.stderr := "" |} |}.

Definition sample_env : gmap string string :=
  {[ "GITLAB_PROJECT_ID" := "42"; "GITLAB_TRIGGER_TOKEN" := "secret";
     "GITLAB_BRANCH" := "develop" ]}.

Definition sample_request (body : string) : Webhook.request :=
  {| Webhook.content_length := Some "5"; Webhook.rfile := body |}.

(** No option given on the command line. *)
Definition no_arguments : Webhook.arguments :=
  {| Webhook.host := None; Webhook.port := None; Webhook.gitlab_url := None;
     Webhook.project_id := None; Webhook.trigger_token := None;
     Webhook.branch := None |}.

(** ** The inference service, [app/main.py] *)

Module App.

(** Increments of the Prometheus counters. *)
Inductive metric : Type :=
  | RequestCount (endpoint method code : string)
  | DriftEvent.

#[global] Instance metric_eq_dec : EqDecision metric.
Proof. solve_decision. Defined.

(** What the handler reads of [cd.predict(X)]: the two entries of its
    [data] dictionary. *)
Record alibi_prediction : Type := {
  is_drift : Z;
  p_val : float
}.

Inductive log_entry : Type :=
  | Checker (r : log_record)
  | ValidationFailed
  | PredictionError (e : exn)
  | AlibiDrift (p_val : float)
  | StatisticalDrift (drift_details : gmap string feature_report).

Inductive task : Type :=
  | NotifyWebhook (payload : alibi_prediction).

Section Service.
Context {Prediction : Type}.

(** The module's globals once [load_model] has run, and the library
    calls of the handler. *)
Record service : Type := {
  np_array : list (list float) → result ndarray;
  stats : scipy_stats;
  model_predict : ndarray → result (list Prediction);
  item : Prediction → result Prediction;
  model_version : string;
  ref_data : option ndarray;
  cd : option (ndarray → result alibi_prediction);
  dq_checker : option DataQualityChecker;
  DRIFT_ENABLED : bool;
  DRIFT_WEBHOOK : option string
}.

Inductive outcome : Type :=
  | HTTPException (status_code : nat) (detail : exn)
  | Escaped (e : exn)
  | PredictResponse (predictions : list Prediction) (version : string) (drift : bool).

Record handled : Type := {
  log : list log_entry;
  metrics : list metric;
  tasks : list task;
  answer : outcome
}.

(** [_pyify] *)
Definition _pyify (svc : service) (x : Prediction) : Prediction :=
  match item svc x with
  | inr v => v
  | inl _ => x
  end.

(** The validation step of the handler: advisory, it only logs. *)
Definition validation_log (svc : service) (X : ndarray) : list log_entry :=
  match dq_checker svc with
  | Some checker =>
      let '(l, valid) := validate_inference_data checker X in
      map Checker l ++ (if valid then [] else [ValidationFailed])
  | None => []
  end.

(** The statistical drift check of the handler: its log, the counter
    increments and whether it found drift. *)
Definition statistical_check (svc : service) (X : ndarray)
  : list log_entry * list metric * bool :=
  match ref_data svc, dq_checker svc with
  | Some reference, Some _ =>
      let '(l, (stat_drift, drift_details)) :=
        detect_data_drift (stats svc) reference X in
      if stat_drift
      then (map Checker l ++ [StatisticalDrift drift_details], [DriftEvent], true)
      else (map Checker l, [], false)
  | _, _ => ([], [], false)
  end.

(** [DRIFT_WEBHOOK] is used when it is set and not empty. *)
Definition webhook_tasks (svc : service) (preds : alibi_prediction) : list task :=
  match DRIFT_WEBHOOK svc with
  | Some url => if decide (url = "") then [] else [NotifyWebhook preds]
  | None => []
  end.

(** The handler after the prediction has been made. *)
Definition after_prediction (svc : service) (method : string) (X : ndarray)
    (y_pred : list Prediction) (validated : list log_entry) : handled :=
  let finish (lg : list log_entry) (ms : list metric) (ts : list task) (flag : bool) :=
    let '(l, m, stat_drift) := statistical_check svc X in
    {| log := validated ++ lg ++ l;
       metrics := ms ++ m ++ [RequestCount "/predict" method "200"];
       tasks := ts;
       answer := PredictResponse (map (_pyify svc) y_pred) (model_version svc)
                   (if stat_drift then true else flag) |} in
  match (if DRIFT_ENABLED svc then cd svc else None) with
  | Some detector =>
      match detector X with
      | inl e => {| log := validated; metrics := []; tasks := []; answer := Escaped e |}
      | inr preds =>
          if decide (is_drift preds = 0%Z)
          then finish [] [] [] false
          else finish [AlibiDrift (p_val preds)] [DriftEvent] (webhook_tasks svc preds) true
      end
  | None => finish [] [] [] false
  end.

(** [predict] *)
Definition predict (svc : service) (data : list (list float)) (method : string) : handled :=
  match np_array svc data with
  | inl e =>
      {| log := [PredictionError e];
         metrics := [RequestCount "/predict" method "500"];
         tasks := []; answer := HTTPException 500 e |}
  | inr X =>
      let validated := validation_log svc X in
      match model_predict svc X with
      | inl e =>
          {| log := validated ++ [PredictionError e];
             metrics := [RequestCount "/predict" method "500"];
             tasks := []; answer := HTTPException 500 e |}
      | inr y_pred => after_prediction svc method X y_pred validated
      end
  end.

End Service.

End App.

(** *** A stand-in for the inference service *)

(** A service whose model predicts 0 for every row, whose reference is
    the sample reference, and whose alibi detector always reports
    drift; [np.array] is taken on rectangular data only. *)
Definition stub_service (enabled : bool) : @App.service Z :=
  {| App.np_array := λ data,
       match data with
       | [] => Return (Array1 float64 [])
       | row :: _ => Return (Array2 float64 (length row) data)
       end;
     App.stats := stub_stats;
     App.model_predict := λ X, Return (replicate (shape0 X) 0%Z);
     App.item := λ x, Return x;
     App.model_version := "v1";
     App.ref_data := Some (Array2 float64 2 sample_reference);
     App.cd := Some (λ _, Return {| App.is_drift := 1; App.p_val := 0.01%float |});
     App.dq_checker := Some default_checker;
     App.DRIFT_ENABLED := enabled;
     App.DRIFT_WEBHOOK := None |}.

(** * Properties *)

(** ** The effect monad and the loop *)

Ltac unfold_py :=
  unfold mbind, mret, Py_bind, Py_ret, py_bind, result_bind, result_ret,
    lift, emit, Raise, Return in *.

Lemma feature_name_inj (i j : nat) : feature_name i = feature_name j → i = j.
Proof.
  unfold feature_name. intros H.
  apply (inj (String.append "feature_")) in H.
  by apply (inj pretty) in H.
Qed.

(** A loop whose iterations all return normally is a fold. *)
Lemma for_each_returns {S : Type} (body : nat → S → Py S)
    (w : nat → list log_record) (f : nat → S → S) (idx : list nat) (st : S) :
  (∀ i st', i ∈ idx → body i st' = (w i, inr (f i st'))) →
  for_each body idx st = (concat (map w idx), inr (foldl (λ s i, f i s) st idx)).
Proof.
  revert st. induction idx as [|i idx IH]; intros st Hbody; [done|].
  cbn [for_each map concat foldl].
  unfold mbind, Py_bind, py_bind.
  rewrite (Hbody i st) by constructor.
  rewrite IH; [done|].
  intros j st' Hj. apply Hbody. by constructor.
Qed.

(** A loop with an iteration that raises from every state raises. *)
Lemma for_each_raises {S : Type} (body : nat → S → Py S) (idx : list nat) (i : nat) :
  i ∈ idx →
  (∀ st, ∃ l e, body i st = (l, inl e)) →
  ∀ st, ∃ l e, for_each body idx st = (l, inl e).
Proof.
  intros Hin Hi. induction idx as [|j idx IH]; intros st.
  - by apply elem_of_nil in Hin.
  - cbn [for_each]. unfold mbind, Py_bind, py_bind.
    destruct (body j st) as [l [e|st']] eqn:Hj; [by eauto|].
    apply elem_of_cons in Hin as [->|Hin].
    + destruct (Hi st) as (l' & e & He). congruence.
    + destruct (IH Hin st') as (l' & e & ->). by eauto.
Qed.

(** Two bodies that agree on the indices of the loop give the same loop. *)
Lemma for_each_ext {S : Type} (body body' : nat → S → Py S) (idx : list nat) (st : S) :
  (∀ i st', i ∈ idx → body i st' = body' i st') →
  for_each body idx st = for_each body' idx st.
Proof.
  revert st. induction idx as [|i idx IH]; intros st Hext; [done|].
  cbn [for_each]. unfold mbind, Py_bind, py_bind.
  rewrite (Hext i st) by constructor.
  destruct (body' i st) as [l [e|st']]; [done|].
  rewrite IH; [done|]. intros j st'' Hj. apply Hext. by constructor.
Qed.

(** ** One iteration of the detector *)

Section DetectorFacts.
Context (stats : scipy_stats) (reference_data current_data : ndarray).

Local Abbreviation step := (drift_step stats reference_data current_data).
Local Abbreviation report := (expected_report stats reference_data current_data).
Local Abbreviation next := (step_state stats reference_data current_data).

Lemma drift_step_returns (i : nat) (ks : float * float) st :
  ks_outcome stats reference_data current_data i = Return ks →
  step i st = (expected_warning i ks, inr (next (λ _, ks) i st)).
Proof.
  unfold ks_outcome, drift_step, step_state, expected_warning,
    expected_report, flagged.
  destruct st as [dd m]. intros Hks. unfold_py.
  destruct (column reference_data i) as [e|x]; [by simplify_eq/=|].
  destruct (column current_data i) as [e|y]; [by simplify_eq/=|].
  cbn in Hks |- *. rewrite Hks. destruct ks as [s p]. cbn.
  destruct (anderson_or_none stats reference_data current_data i) as [[a c] g].
  by destruct (PrimFloat.ltb p drift_threshold).
Qed.

Lemma drift_step_raises (i : nat) (e : exn) st :
  ks_outcome stats reference_data current_data i = Raise e →
  step i st = ([], inl e).
Proof.
  unfold ks_outcome, drift_step. destruct st as [dd m]. intros Hks. unfold_py.
  destruct (column reference_data i) as [e'|x]; [by simplify_eq|].
  destruct (column current_data i) as [e'|y]; [by simplify_eq|].
  cbn in Hks |- *. by rewrite Hks.
Qed.

(** The loop-carried state after the iterations of [idx]. *)
Lemma fold_step_state (ks : nat → float * float) (idx : list nat) dd m :
  foldl (λ s i, next ks i s) (dd, m) idx
  = (dd || existsb (λ i, flagged (ks i).2) idx,
     foldl (λ m' i, <[feature_name i := report i (ks i)]> m') m idx).
Proof.
  revert dd m. induction idx as [|i idx IH]; intros dd m; cbn.
  - by rewrite orb_false_r.
  - unfold step_state at 2. cbn. rewrite IH.
    unfold flagged. f_equal. by destruct (PrimFloat.ltb _ _), dd.
Qed.

Lemma lookup_fold_reports (ks : nat → float * float) (idx : list nat)
    (m : gmap string feature_report) (k : string) :
  foldl (λ m' i, <[feature_name i := report i (ks i)]> m') m idx !! k
  = match list_find (λ i, feature_name i = k) (reverse idx) with
    | Some (_, i) => Some (report i (ks i))
    | None => m !! k
    end.
Proof.
  revert m. induction idx as [|i idx IH]; intros m; [done|].
  cbn [foldl]. rewrite IH, reverse_cons.
  destruct (list_find _ (reverse idx)) as [[n j]|] eqn:Hfind.
  - by erewrite list_find_app_l.
  - rewrite list_find_app_r by done. cbn.
    case_decide as Hk; cbn.
    + subst k. by rewrite lookup_insert_eq.
    + by rewrite lookup_insert_ne.
Qed.

Lemma lookup_reports_seq (ks : nat → float * float) (d i : nat) :
  foldl (λ m' j, <[feature_name j := report j (ks j)]> m')
        (∅ : gmap string feature_report) (seq 0 d) !! feature_name i
  = if decide (i < d) then Some (report i (ks i)) else None.
Proof.
  rewrite lookup_fold_reports.
  destruct (list_find _ _) as [[n j]|] eqn:Hfind.
  - apply list_find_Some in Hfind as (Hj & Heq & _).
    apply feature_name_inj in Heq as ->.
    apply list_elem_of_lookup_2, elem_of_reverse, elem_of_seq in Hj.
    by rewrite decide_True by lia.
  - rewrite lookup_empty. case_decide as Hi; [|done].
    apply list_find_None in Hfind. rewrite Forall_forall in Hfind.
    destruct (Hfind i); [|done].
    apply elem_of_reverse, elem_of_seq. lia.
Qed.

Lemma dom_reports_seq (ks : nat → float * float) (d : nat) (k : string) :
  is_Some (foldl (λ m' j, <[feature_name j := report j (ks j)]> m')
                 (∅ : gmap string feature_report) (seq 0 d) !! k) →
  ∃ i, i < d ∧ k = feature_name i.
Proof.
  rewrite lookup_fold_reports.
  destruct (list_find _ _) as [[n j]|] eqn:Hfind.
  - intros _. apply list_find_Some in Hfind as (Hj & Heq & _).
    apply list_elem_of_lookup_2, elem_of_reverse, elem_of_seq in Hj.
    exists j. split; [lia|done].
  - rewrite lookup_empty. by intros [? ?].
Qed.

(** The detector when every Kolmogorov-Smirnov call returns. *)
Lemma detect_returns (d : nat) :
  shape1 reference_data = Return d →
  (∀ i, i < d → ∃ r, ks_outcome stats reference_data current_data i = Return r) →
  let ks := ks_or_nan stats reference_data current_data in
  detect_data_drift stats reference_data current_data
  = (concat (map (λ i, expected_warning i (ks i)) (seq 0 d)),
     (existsb (λ i, flagged (ks i).2) (seq 0 d),
      foldl (λ m' i, <[feature_name i := report i (ks i)]> m') ∅ (seq 0 d))).
Proof.
  intros Hd Hks ks. unfold detect_data_drift, detect_body.
  rewrite Hd. unfold lift, Return. unfold mbind at 1, Py_bind, py_bind.
  rewrite (for_each_returns _ (λ i, expected_warning i (ks i)) (next ks)).
  - by rewrite fold_step_state.
  - intros i st Hi. apply elem_of_seq in Hi.
    destruct (Hks i) as [r Hr]; [lia|].
    rewrite (drift_step_returns i r st Hr).
    unfold step_state, ks, ks_or_nan. by rewrite Hr.
Qed.

(** The detector when some iteration raises. *)
Lemma detect_raises (d i : nat) :
  shape1 reference_data = Return d → i < d →
  (∃ e, ks_outcome stats reference_data current_data i = Raise e) →
  ∃ l e, detect_data_drift stats reference_data current_data
         = (l ++ [ErrorDrift e], (false, ∅)).
Proof.
  intros Hd Hi [e He]. unfold detect_data_drift, detect_body.
  rewrite Hd. unfold lift, Return. unfold mbind at 1, Py_bind, py_bind.
  destruct (for_each_raises (drift_step stats reference_data current_data)
              (seq 0 d) i) with (st := (false, ∅ : gmap string feature_report))
    as (l & e' & ->).
  - apply elem_of_seq. lia.
  - intros st. exists [], e. by apply drift_step_raises.
  - by eauto.
Qed.

End DetectorFacts.

(** ** Columns of two-dimensional batches *)

Lemma cells_nonempty (rows : list (list float)) (i : nat) :
  rows ≠ [] → cells rows i ≠ [].
Proof. by destruct rows. Qed.

Lemma ks_outcome_array2 stats dt0 dt1 d d' rows0 rows1 i :
  i < d → i < d' →
  ks_outcome stats (Array2 dt0 d rows0) (Array2 dt1 d' rows1) i
  = ks_2samp stats (cells rows0 i) (cells rows1 i).
Proof.
  intros Hd Hd'. unfold ks_outcome, column.
  by rewrite !decide_True by done.
Qed.

Lemma cells_take (rows : list (list float)) (d i : nat) :
  i < d → cells (map (take d) rows) i = cells rows i.
Proof.
  intros Hi. unfold cells. rewrite map_map. apply map_ext. intros row.
  revert i Hi row. induction d as [|d IH]; intros i Hi row; [lia|].
  destruct row as [|x row]; [done|]. destruct i as [|i]; [done|].
  cbn. apply IH. lia.
Qed.

(** The warnings in the log of a run are those of the flagged features. *)
Lemma warning_logged (ks : nat → float * float) (idx : list nat) (i : nat) (q : float) :
  WarnDrift i q ∈ concat (map (λ j, expected_warning j (ks j)) idx)
  ↔ i ∈ idx ∧ q = (ks i).2 ∧ flagged (ks i).2 = true.
Proof.
  induction idx as [|j idx IH]; cbn.
  - split; [by intros ?%elem_of_nil | by intros [?%elem_of_nil _]].
  - rewrite elem_of_app, IH, elem_of_cons. unfold expected_warning.
    destruct (flagged (ks j).2) eqn:Hj.
    + rewrite list_elem_of_singleton. split.
      * intros [Heq|(? & ? & ?)]; [|by auto]. injection Heq as -> ->. by auto.
      * intros ([->|?] & -> & ?); [by left | by right].
    + split.
      * intros [?%elem_of_nil|(? & ? & ?)]; [done | by auto].
      * intros ([->|?] & -> & ?); [unfold flagged in *; congruence | by right].
Qed.

Lemma drifted_iff (ks : nat → float * float) (d : nat) :
  existsb (λ i, flagged (ks i).2) (seq 0 d) = true
  ↔ ∃ i, i < d ∧ flagged (ks i).2 = true.
Proof.
  rewrite existsb_exists. split.
  - intros (i & Hi%in_seq & ?). exists i. split; [lia|done].
  - intros (i & Hi & ?). exists i. split; [apply in_seq; lia|done].
Qed.

(** ** The stand-in library has the assumed properties *)

Lemma stub_defined_on_nonempty : ks_defined_on_nonempty stub_stats.
Proof.
  intros [|a x] [|b y] Hx Hy; try done. cbn.
  destruct (PrimFloat.eqb a b); by eauto.
Qed.

Lemma stub_rejects_empty : ks_rejects_empty stub_stats.
Proof.
  intros x y [-> | ->]; cbn; [by eauto|]. destruct x; by eauto.
Qed.

Lemma stub_identical_samples : ks_identical_samples stub_stats.
Proof.
  intros [|a x] Hx Hnan; [done|]. cbn.
  apply Forall_cons in Hnan as [Ha _].
  unfold PrimFloat.is_nan in Ha. apply negb_false_iff in Ha. by rewrite Ha.
Qed.

(** The library that answers NaN agrees with it on a sample without NaN
    compared with itself. *)
Lemma nan_stats_identical_samples : ks_identical_samples nan_stats.
Proof.
  intros [|a x] Hx Hnan; [done|]. cbn [nan_stats ks_2samp].
  assert (existsb PrimFloat.is_nan ((a :: x) ++ a :: x) = false) as ->.
  { apply not_true_is_false. intros (v & Hv & Hnv)%existsb_exists.
    apply in_app_or in Hv. rewrite Forall_forall in Hnan.
    destruct Hv as [Hv|Hv]; apply list_elem_of_In, Hnan in Hv; congruence. }
  by apply stub_identical_samples.
Qed.

(** ** Drift detection on batches of equal width *)

(** C1.  For reference and current batches of the same width [d] with at
    least two rows each, and a Kolmogorov-Smirnov routine that is
    computed on non-empty samples: the report has, for every feature
    [i < d], the statistic and p-value of the test on column [i]; a
    drift warning is logged for feature [i] exactly when that p-value
    is strictly below 0.05; and [drift_detected] is true exactly when
    some feature has a p-value strictly below 0.05. *)
Theorem detect_flags_by_ks_pvalue (stats : scipy_stats) (dt0 dt1 : dtype) (d : nat)
    (rows0 rows1 : list (list float)) :
  ks_defined_on_nonempty stats →
  2 ≤ length rows0 → 2 ≤ length rows1 →
  ∃ lg drift_detected drift_details,
    detect_data_drift stats (Array2 dt0 d rows0) (Array2 dt1 d rows1)
      = (lg, (drift_detected, drift_details)) ∧
    (∀ i, i < d → ∃ s p r,
        ks_2samp stats (cells rows0 i) (cells rows1 i) = Return (s, p) ∧
        drift_details !! feature_name i = Some r ∧
        ks_statistic r = s ∧ ks_pvalue r = p ∧
        ((∃ q, WarnDrift i q ∈ lg) ↔ PrimFloat.ltb p 0.05 = true)) ∧
    (drift_detected = true ↔
       ∃ i s p, i < d ∧
         ks_2samp stats (cells rows0 i) (cells rows1 i) = Return (s, p) ∧
         PrimFloat.ltb p 0.05 = true).
Proof.
  intros Hks Hn0 Hn1.
  set (ref := Array2 dt0 d rows0). set (cur := Array2 dt1 d rows1).
  assert (Hall : ∀ i, i < d → ∃ r, ks_outcome stats ref cur i = Return r).
  { intros i Hi. unfold ref, cur. rewrite ks_outcome_array2 by done.
    apply Hks; apply cells_nonempty; intros ->; cbn in *; lia. }
  assert (Hor : ∀ i s p, i < d →
            ks_2samp stats (cells rows0 i) (cells rows1 i) = Return (s, p) →
            ks_or_nan stats ref cur i = (s, p)).
  { intros i s p Hi Hsp. unfold ks_or_nan, ref, cur.
    by rewrite ks_outcome_array2, Hsp. }
  eexists _, _, _. split; [by apply (detect_returns stats ref cur d)|].
  split.
  - intros i Hi. destruct (Hall i Hi) as [[s p] Hsp].
    unfold ref, cur in Hsp. rewrite ks_outcome_array2 in Hsp by done.
    pose proof (Hor i s p Hi Hsp) as Hi'.
    exists s, p, (expected_report stats ref cur i (s, p)).
    split; [done|]. split.
    { rewrite lookup_reports_seq, decide_True by done. by rewrite Hi'. }
    unfold expected_report.
    destruct (anderson_or_none stats ref cur i) as [[a c] g]. cbn.
    split; [done|]. split; [done|]. split.
    + intros [q Hq]. apply warning_logged in Hq as (_ & _ & Hf).
      by rewrite Hi' in Hf.
    + intros Hp. exists p. apply warning_logged.
      rewrite Hi'. split; [apply elem_of_seq; lia|done].
  - rewrite drifted_iff. split.
    + intros (i & Hi & Hf). destruct (Hall i Hi) as [[s p] Hsp].
      unfold ref, cur in Hsp. rewrite ks_outcome_array2 in Hsp by done.
      exists i, s, p. rewrite (Hor i s p Hi Hsp) in Hf. done.
    + intros (i & s & p & Hi & Hsp & Hp). exists i.
      by rewrite (Hor i s p Hi Hsp).
Qed.

Lemma detect_flags_by_ks_pvalue_witness :
  ∃ lg drift_detected drift_details,
    detect_data_drift stub_stats (Array2 float64 2 sample_reference)
                                 (Array2 float64 2 sample_current)
      = (lg, (drift_detected, drift_details)) ∧
    (∀ i, i < 2 → ∃ s p r,
        ks_2samp stub_stats (cells sample_reference i) (cells sample_current i)
          = Return (s, p) ∧
        drift_details !! feature_name i = Some r ∧
        ks_statistic r = s ∧ ks_pvalue r = p ∧
        ((∃ q, WarnDrift i q ∈ lg) ↔ PrimFloat.ltb p 0.05 = true)) ∧
    (drift_detected = true ↔
       ∃ i s p, i < 2 ∧
         ks_2samp stub_stats (cells sample_reference i) (cells sample_current i)
           = Return (s, p) ∧
         PrimFloat.ltb p 0.05 = true).
Proof.
  apply (detect_flags_by_ks_pvalue stub_stats float64 float64 2
           sample_reference sample_current).
  - exact stub_defined_on_nonempty.
  - cbn. lia.
  - cbn. lia.
Defined.



(** ** The reference compared with itself *)

Lemma cells_nan_free (rows : list (list float)) (i : nat) :
  nan_free rows → Forall (λ v, PrimFloat.is_nan v = false) (cells rows i).
Proof.
  unfold nan_free, cells. intros Hrows. apply Forall_map.
  eapply Forall_impl; [exact Hrows|]. intros row Hrow. cbn.
  revert i. induction Hrow as [|x row Hx Hrow IH]; intros [|i]; cbn; auto.
Qed.

(** C8 (as the code has it).  For a reference batch with at least two
    rows and no NaN cell, and a Kolmogorov-Smirnov routine that gives
    statistic 0 and p-value 1 on a sample without NaN compared with
    itself: the reference compared with itself yields
    [drift_detected = False], no warning, and for every feature an
    entry with p-value 1.0 and statistic 0. *)
Theorem detect_reference_against_itself (stats : scipy_stats) (dt : dtype) (d : nat)
    (rows : list (list float)) :
  ks_identical_samples stats →
  2 ≤ length rows → nan_free rows →
  ∃ drift_details,
    detect_data_drift stats (Array2 dt d rows) (Array2 dt d rows)
      = ([], (false, drift_details)) ∧
    ∀ i, i < d → ∃ r,
      drift_details !! feature_name i = Some r ∧
      ks_pvalue r = 1%float ∧ ks_statistic r = 0%float.
Proof.
  intros Hks Hn Hnan.
  set (ref := Array2 dt d rows).
  assert (Hcol : ∀ i, i < d → ks_outcome stats ref ref i = Return (0%float, 1%float)).
  { intros i Hi. unfold ref. rewrite ks_outcome_array2 by done.
    apply Hks; [|by apply cells_nan_free].
    apply cells_nonempty. intros ->. cbn in Hn. lia. }
  assert (Hor : ∀ i, i < d → ks_or_nan stats ref ref i = (0%float, 1%float)).
  { intros i Hi. unfold ks_or_nan. by rewrite Hcol. }
  eexists. split.
  - rewrite (detect_returns stats ref ref d); [|done|by eauto].
    f_equal; [|f_equal].
    + apply concat_nil_Forall, Forall_map, Forall_forall.
      intros i Hi%elem_of_seq. rewrite Hor by lia. done.
    + apply not_true_is_false. rewrite drifted_iff.
      intros (i & Hi & Hf). rewrite Hor in Hf by done. done.
  - intros i Hi. eexists. split.
    { by rewrite lookup_reports_seq, decide_True. }
    rewrite Hor by done. unfold expected_report.
    by destruct (anderson_or_none stats ref ref i) as [[a c] g].
Qed.

Lemma detect_reference_against_itself_witness :
  ∃ drift_details,
    detect_data_drift stub_stats (Array2 float64 2 sample_reference)
                                 (Array2 float64 2 sample_reference)
      = ([], (false, drift_details)) ∧
    ∀ i, i < 2 → ∃ r,
      drift_details !! feature_name i = Some r ∧
      ks_pvalue r = 1%float ∧ ks_statistic r = 0%float.
Proof.
  apply (detect_reference_against_itself stub_stats float64 2 sample_reference).
  - exact stub_identical_samples.
  - cbn. lia.
  - repeat constructor.
Defined.

(** C8 (as stated) fails on a reference with a NaN cell.  The detector
    hands the column to the library as it is; a library that gives
    statistic 0 and p-value 1 on every sample without NaN compared with
    itself, and NaN on a sample that holds one, puts NaN in the entry
    of [feature_0], not 1.0 and 0. *)
Lemma detect_reference_with_nan_against_itself :
  ks_identical_samples nan_stats ∧
  2 ≤ length sample_with_nan ∧
  ∃ drift_details,
    detect_data_drift nan_stats (Array2 float64 2 sample_with_nan)
                                (Array2 float64 2 sample_with_nan)
      = ([], (false, drift_details)) ∧
    ∃ r, drift_details !! feature_name 0 = Some r ∧
         ks_pvalue r = PrimFloat.nan ∧ ks_statistic r = PrimFloat.nan ∧
         ks_pvalue r ≠ 1%float ∧ ks_statistic r ≠ 0%float.
Proof.
  split; [exact nan_stats_identical_samples|]. split; [cbn; lia|].
  eexists. split; [vm_compute; reflexivity|].
  eexists. split; [vm_compute; reflexivity|]. cbn.
  repeat split; intros Heq; apply (f_equal PrimFloat.is_nan) in Heq; discriminate Heq.
Qed.

(** ** Empty and mismatched batches *)

(** C5 (as the code has it).  For every reference batch and every
    current batch of zero rows that is one-dimensional, which is what
    numpy makes of an empty list, or that meets a Kolmogorov-Smirnov
    routine which rejects an empty sample with an exception, the call
    returns [drift_detected = False] with an empty per-feature map. *)
Theorem detect_empty_current (stats : scipy_stats) (reference_data current_data : ndarray) :
  shape0 current_data = 0 →
  shape1 current_data = Raise IndexError ∨ ks_rejects_empty stats →
  (detect_data_drift stats reference_data current_data).2 = (false, ∅).
Proof.
  intros Hempty Hcase.
  destruct reference_data as [dt0 data|dt0 d rows0]; [done|].
  destruct d as [|d]; [done|].
  destruct (detect_raises stats (Array2 dt0 (S d) rows0) current_data (S d) 0)
    as (l & e & ->); [done|lia| |done].
  unfold ks_outcome, column. rewrite decide_True by lia.
  destruct current_data as [dt1 data|dt1 d' rows1]; [by eexists|].
  destruct Hcase as [Hdim|Hks]; [done|].
  cbn in Hempty. apply nil_length_inv in Hempty as ->.
  case_decide; [|by eexists]. cbn.
  apply Hks. by right.
Qed.

Lemma detect_empty_current_witness :
  (detect_data_drift stub_stats (Array2 float64 2 sample_reference)
                                (Array1 float64 [])).2 = (false, ∅)
  ∧ (detect_data_drift stub_stats (Array2 float64 2 sample_reference)
                                  (Array2 float64 2 [])).2 = (false, ∅).
Proof.
  split.
  - apply (detect_empty_current stub_stats); [reflexivity|].
    left. reflexivity.
  - apply (detect_empty_current stub_stats); [reflexivity|].
    right. exact stub_rejects_empty.
Defined.

(** C5 (as stated) fails on a two-dimensional batch of zero rows when
    the library answers NaN on an empty sample instead of raising: the
    detector has no check of its own for emptiness, every iteration
    completes, and the report has an entry for each feature of the
    reference. *)
Lemma detect_empty_current_keeps_entries :
  shape0 (Array2 float64 2 []) = 0 ∧
  ∃ drift_details,
    detect_data_drift nan_stats (Array2 float64 2 sample_reference)
                                (Array2 float64 2 [])
      = ([], (false, drift_details)) ∧
    drift_details !! feature_name 0 = Some nan_report ∧
    drift_details !! feature_name 1 = Some nan_report ∧
    drift_details ≠ ∅.
Proof.
  split; [reflexivity|].
  eexists. split; [vm_compute; reflexivity|].
  split; [vm_compute; reflexivity|]. split; [vm_compute; reflexivity|].
  intros Heq. apply (f_equal (λ m : gmap string feature_report, m !! feature_name 0)) in Heq.
  vm_compute in Heq. discriminate Heq.
Qed.

(** A current batch wider than the reference is read on the reference's
    columns only. *)
Lemma detect_first_columns (stats : scipy_stats) (dt0 dt1 : dtype) (d d' : nat)
    (rows0 rows1 : list (list float)) :
  d ≤ d' →
  detect_data_drift stats (Array2 dt0 d rows0) (Array2 dt1 d' rows1)
  = detect_data_drift stats (Array2 dt0 d rows0) (first_columns d (Array2 dt1 d' rows1)).
Proof.
  intros Hd. unfold detect_data_drift, detect_body. cbn [shape1 first_columns].
  unfold lift, Return, mbind, Py_bind, py_bind.
  rewrite (for_each_ext _
             (drift_step stats (Array2 dt0 d rows0) (Array2 dt1 d (map (take d) rows1))));
    [done|].
  intros i [dd m] Hi%elem_of_seq.
  unfold drift_step, anderson_or_none, column.
  rewrite !decide_True by lia. by rewrite cells_take by lia.
Qed.

(** C2 (as the code has it).  A width mismatch raises nothing past the
    detector.  When the current batch has fewer columns than the
    reference, the error is logged and the call returns
    [drift_detected = False] with an empty per-feature map; when it has
    more, the call is the one on the current batch cut down to the
    reference's columns. *)
Theorem detect_width_mismatch (stats : scipy_stats) (dt0 dt1 : dtype) (d d' : nat)
    (rows0 rows1 : list (list float)) :
  d ≠ d' →
  (d' < d ∧
   ∃ l e, detect_data_drift stats (Array2 dt0 d rows0) (Array2 dt1 d' rows1)
          = (l ++ [ErrorDrift e], (false, ∅)))
  ∨ (d < d' ∧
     detect_data_drift stats (Array2 dt0 d rows0) (Array2 dt1 d' rows1)
     = detect_data_drift stats (Array2 dt0 d rows0)
         (first_columns d (Array2 dt1 d' rows1))).
Proof.
  intros Hne. destruct (decide (d' < d)) as [Hlt|Hge].
  - left. split; [done|].
    apply (detect_raises stats _ _ d d'); [reflexivity|done|].
    exists IndexError. unfold ks_outcome, column.
    repeat case_decide; try lia; done.
  - right. split; [lia|]. apply detect_first_columns. lia.
Qed.

Lemma detect_width_mismatch_witness :
  (1 < 2 ∧
   ∃ l e, detect_data_drift stub_stats (Array2 float64 2 sample_reference)
                                       (Array2 float64 1 sample_narrow)
          = (l ++ [ErrorDrift e], (false, ∅)))
  ∨ (2 < 1 ∧
     detect_data_drift stub_stats (Array2 float64 2 sample_reference)
                                  (Array2 float64 1 sample_narrow)
     = detect_data_drift stub_stats (Array2 float64 2 sample_reference)
         (first_columns 2 (Array2 float64 1 sample_narrow))).
Proof.
  apply (detect_width_mismatch stub_stats float64 float64 2 1
           sample_reference sample_narrow).
  lia.
Defined.

(** C2 (as stated) fails: a reference of two features against a current
    batch of one.  Whatever the library computes on the first column,
    the missing second column raises, and the caller receives
    [(False, {})], the very value a comparison of two batches without
    features returns. *)
Lemma detect_width_mismatch_looks_like_no_drift :
  shape1 (Array2 float64 2 sample_reference) ≠ shape1 (Array2 float64 1 sample_narrow) ∧
  ∀ stats,
    (detect_data_drift stats (Array2 float64 2 sample_reference)
                             (Array2 float64 1 sample_narrow)).2 = (false, ∅) ∧
    (detect_data_drift stats (Array2 float64 2 sample_reference)
                             (Array2 float64 1 sample_narrow)).2
    = (detect_data_drift stats (Array2 float64 0 [[]; []])
                               (Array2 float64 0 [[]; []])).2.
Proof.
  split; [done|]. intros stats.
  destruct (detect_raises stats (Array2 float64 2 sample_reference)
              (Array2 float64 1 sample_narrow) 2 1) as (l & e & ->);
    [reflexivity|lia|by exists IndexError|done].
Qed.

(** C10.  For a reference of width [d] and a current batch of width
    [d' > d], the call is the call on the current batch cut down to its
    first [d] columns, and every key of the per-feature report is the
    name of a feature below [d]. *)
Theorem detect_ignores_extra_columns (stats : scipy_stats) (dt0 dt1 : dtype) (d d' : nat)
    (rows0 rows1 : list (list float)) :
  d < d' →
  detect_data_drift stats (Array2 dt0 d rows0) (Array2 dt1 d' rows1)
  = detect_data_drift stats (Array2 dt0 d rows0) (Array2 dt1 d (map (take d) rows1))
  ∧ ∀ k, is_Some ((detect_data_drift stats (Array2 dt0 d rows0)
                     (Array2 dt1 d' rows1)).2.2 !! k) →
         ∃ i, i < d ∧ k = feature_name i.
Proof.
  intros Hd. split; [apply detect_first_columns; lia|].
  intros k. unfold detect_data_drift, detect_body. cbn [shape1].
  unfold lift, Return. unfold mbind at 1, Py_bind, py_bind.
  set (body := drift_step stats _ _).
  assert (Hinv : ∀ idx st l st',
            Forall (λ i, i < d) idx →
            for_each body idx st = (l, inr st') →
            is_Some (st'.2 !! k) →
            is_Some (st.2 !! k) ∨ ∃ i, i < d ∧ k = feature_name i).
  { induction idx as [|i idx IH]; intros st l st' Hidx Hrun Hk.
    - cbn in Hrun. injection Hrun as _ <-. by left.
    - cbn [for_each] in Hrun. unfold mbind, Py_bind, py_bind in Hrun.
      apply Forall_cons in Hidx as [Hi Hidx].
      destruct (body i st) as [l1 [e|st1]] eqn:Hstep; [done|].
      destruct (for_each body idx st1) as [l2 r] eqn:Hrest.
      injection Hrun as _ ->.
      destruct (IH st1 l2 st' Hidx Hrest Hk) as [Hk1|?]; [|by right].
      unfold body, drift_step in Hstep. destruct st as [dd m]. unfold_py.
      destruct (column _ i) as [e|x]; [done|].
      destruct (column _ i) as [e|y]; [done|]. cbn in Hstep.
      destruct (ks_2samp stats x y) as [e|[s p]]; [done|]. cbn in Hstep.
      destruct (anderson_or_none _ _ _ i) as [[a c] g].
      destruct (decide (k = feature_name i)) as [->|Hne]; [right; by eauto|].
      left. cbn.
      destruct (PrimFloat.ltb p drift_threshold); cbn in Hstep;
        injection Hstep as _ <-; cbn in Hk1;
        by rewrite lookup_insert_ne in Hk1. }
  destruct (for_each body (seq 0 d) (false, ∅)) as [l [e|st']] eqn:Hrun; cbn.
  - rewrite lookup_empty. by intros [? ?].
  - intros Hk. destruct (Hinv (seq 0 d) (false, ∅) l st') as [Hk0|?]; try done.
    + apply Forall_forall. intros i Hi%elem_of_seq. lia.
    + cbn in Hk0. rewrite lookup_empty in Hk0. by destruct Hk0.
Qed.

Lemma detect_ignores_extra_columns_witness :
  detect_data_drift stub_stats (Array2 float64 2 sample_reference)
                               (Array2 float64 3 sample_wide)
  = detect_data_drift stub_stats (Array2 float64 2 sample_reference)
                                 (Array2 float64 2 (map (take 2) sample_wide))
  ∧ ∀ k, is_Some ((detect_data_drift stub_stats (Array2 float64 2 sample_reference)
                     (Array2 float64 3 sample_wide)).2.2 !! k) →
         ∃ i, i < 2 ∧ k = feature_name i.
Proof.
  apply (detect_ignores_extra_columns stub_stats float64 float64 2 3
           sample_reference sample_wide).
  lia.
Defined.

(** ** The expectation suite *)

Lemma create_expectation_suite_unfold :
  _create_expectation_suite
  = {| expectation_suite_name := "data_quality_suite";
       expectations :=
         [row_count_between 1 10000;
          columns_match_ordered_list ["feature_0"; "feature_1"; "feature_2"; "feature_3"]]
         ++ feature_constraints "feature_0" ++ feature_constraints "feature_1"
         ++ feature_constraints "feature_2" ++ feature_constraints "feature_3" |}.
Proof. vm_compute. reflexivity. Qed.

(** C7.  Whatever the constructor's argument, the checker's suite is
    the same ordered list of constraints: row count between 1 and 10000,
    columns exactly [feature_0 .. feature_3] in order, then for each of
    these columns in turn: it exists, it is of type float64, it has no
    null, its values lie between -10 and 10. *)
Theorem default_suite_is_fixed (path : option string) :
  expectation_suite (__init__ path).2
  = {| expectation_suite_name := "data_quality_suite";
       expectations :=
         [row_count_between 1 10000;
          columns_match_ordered_list ["feature_0"; "feature_1"; "feature_2"; "feature_3"]]
         ++ feature_constraints "feature_0" ++ feature_constraints "feature_1"
         ++ feature_constraints "feature_2" ++ feature_constraints "feature_3" |}.
Proof. exact create_expectation_suite_unfold. Qed.

(** ** What each expectation checks *)

Lemma success_validate (df : DataFrame) (suite : ExpectationSuite) :
  success (validate df suite) = forallb (expectation_succeeds df) (expectations suite).
Proof.
  unfold validate. cbn. induction (expectations suite) as [|cfg l IH]; [done|].
  cbn. by rewrite IH.
Qed.

Lemma succeeds_row_count df lo hi :
  expectation_succeeds df (row_count_between lo hi)
  = bool_decide (lo ≤ Z.of_nat (index_len df) ≤ hi)%Z.
Proof. reflexivity. Qed.

Lemma succeeds_columns_match df names :
  expectation_succeeds df (columns_match_ordered_list names)
  = bool_decide (column_names df = names).
Proof. reflexivity. Qed.

Lemma succeeds_column_exists df c :
  expectation_succeeds df (column_exists c) = bool_decide (c ∈ column_names df).
Proof. reflexivity. Qed.

Lemma run_column_of_type df c type_ :
  run_expectation df (column_of_type c type_)
  = get_column df c ≫= λ v, Return (bool_decide (dtype_name (v_dtype v) = type_)).
Proof. reflexivity. Qed.

Lemma run_column_not_null df c :
  run_expectation df (column_not_null c)
  = get_column df c ≫= λ v, Return (forallb (λ x, negb (is_null x)) (v_values v)).
Proof. reflexivity. Qed.

Lemma run_column_between df c lo hi :
  run_expectation df (column_between c lo hi)
  = get_column df c ≫= λ v,
      Return (forallb (λ x, is_null x || value_between lo hi x) (v_values v)).
Proof. reflexivity. Qed.

(** The constraints of one feature column hold of a float64 column of
    accepted cells. *)
Lemma feature_constraints_hold df c (values : list float) :
  c ∈ column_names df →
  get_column df c = Return {| v_dtype := float64; v_values := values |} →
  Forall cell_ok values →
  forallb (expectation_succeeds df) (feature_constraints c) = true.
Proof.
  intros Hin Hget Hok. unfold feature_constraints. cbn [forallb].
  rewrite succeeds_column_exists, bool_decide_eq_true_2 by done.
  unfold expectation_succeeds.
  rewrite run_column_of_type, run_column_not_null, run_column_between, Hget.
  cbn -[forallb]. 
  assert (forallb (λ x, negb (is_null x)) values = true) as ->.
  { apply forallb_forall. intros x Hx%list_elem_of_In.
    rewrite Forall_forall in Hok. destruct (Hok x Hx) as [-> _]. done. }
  assert (forallb (λ x, is_null x || value_between (-10) 10 x) values = true) as ->.
  { apply forallb_forall. intros x Hx%list_elem_of_In.
    rewrite Forall_forall in Hok. destruct (Hok x Hx) as [_ ->].
    apply orb_true_r. }
  done.
Qed.

Lemma cells_ok (rows : list (list float)) (i : nat) :
  Forall (Forall cell_ok) rows → Forall cell_ok (cells rows i).
Proof.
  unfold cells. intros Hrows. apply Forall_map.
  eapply Forall_impl; [exact Hrows|]. intros row Hrow. cbn.
  revert i. induction Hrow as [|x row Hx Hrow IH]; intros [|i]; cbn; auto.
  all: by split.
Qed.

(** ** Validation of inference batches *)

(** A batch of four float64 columns, between 1 and 10000 rows, all of
    whose cells the schema accepts, passes inference validation. *)
Lemma validate_inference_accepts (rows : list (list float)) :
  (1 ≤ Z.of_nat (length rows) ≤ 10000)%Z →
  Forall (Forall cell_ok) rows →
  validate_inference_data default_checker (Array2 float64 4 rows)
  = ([InfoInferencePassed], true).
Proof.
  intros Hn Hok. unfold validate_inference_data, validate_inference_body.
  cbn [shape1]. unfold_py. cbv beta iota.
  change (new_DataFrame (Array2 float64 4 rows) (map feature_name (seq 0 4)))
    with (inr (A:=exn)
            {| index_len := length rows;
               columns :=
                 [("feature_0", {| v_dtype := float64; v_values := cells rows 0 |});
                  ("feature_1", {| v_dtype := float64; v_values := cells rows 1 |});
                  ("feature_2", {| v_dtype := float64; v_values := cells rows 2 |});
                  ("feature_3", {| v_dtype := float64; v_values := cells rows 3 |})] |}).
  match goal with |- context [inr (A:=exn) ?f] => set (df := f) end.
  cbv beta iota.
  assert (success (validate df (expectation_suite default_checker)) = true) as ->; [|done].
  rewrite success_validate.
  change (expectation_suite default_checker) with _create_expectation_suite.
  rewrite create_expectation_suite_unfold. cbn [expectations].
  rewrite !forallb_app. cbn [forallb].
  rewrite succeeds_row_count, succeeds_columns_match.
  rewrite bool_decide_eq_true_2 by done.
  rewrite bool_decide_eq_true_2 by done.
  rewrite (feature_constraints_hold df "feature_0" (cells rows 0)),
    (feature_constraints_hold df "feature_1" (cells rows 1)),
    (feature_constraints_hold df "feature_2" (cells rows 2)),
    (feature_constraints_hold df "feature_3" (cells rows 3));
    try done; try (by apply cells_ok).
  all: apply list_elem_of_In; cbn; tauto.
Qed.

(** ** Validation of training batches *)

Lemma key_in_assign_column (key : string) (value : vector) (cols : list (string * vector)) :
  key ∈ map fst (assign_column key value cols).
Proof.
  induction cols as [|[k v] cols IH]; cbn.
  - apply list_elem_of_singleton. done.
  - case_decide; cbn; [by left | by right].
Qed.

(** Once the target column is in the frame, the comparison of the
    frame's columns with the list of the four features fails, so the
    suite fails: training validation returns [False] on every input. *)
Lemma validate_training_rejects_every_batch (X : ndarray) (y : vector) :
  (validate_training_data default_checker X y).2 = false.
Proof.
  unfold validate_training_data, validate_training_body. unfold_py.
  destruct (shape1 X) as [e|d]; [done|].
  destruct (new_DataFrame X _) as [e|df]; [done|].
  destruct (set_item df "target" y) as [e|df'] eqn:Hset; [done|].
  assert (success (validate df' (expectation_suite default_checker)) = false) as ->;
    [|done].
  rewrite success_validate.
  change (expectation_suite default_checker) with _create_expectation_suite.
  rewrite create_expectation_suite_unfold. cbn [expectations app forallb].
  rewrite succeeds_columns_match, bool_decide_eq_false_2; [by rewrite andb_false_r|].
  intros Hcols.
  assert ("target" ∈ column_names df') as Hin.
  { unfold set_item, Return, Raise in Hset. unfold column_names.
    repeat case_decide; try done; injection Hset as <-; cbn;
      apply key_in_assign_column. }
  rewrite Hcols in Hin. apply list_elem_of_In in Hin. cbn in Hin.
  intuition discriminate.
Qed.

(** C3 (on the code).  A batch that meets every condition of the claim
    passes inference validation, and fails training validation: with
    the target column appended, seventeen of the eighteen expectations
    hold and the ordered-column-list expectation does not. *)
Theorem validate_training_fails_on_valid_batch :
  validate_inference_data default_checker sample_batch = ([InfoInferencePassed], true) ∧
  validate_training_data default_checker sample_batch sample_target
  = ([WarnTrainingFailed {| evaluated_expectations := 18;
                            successful_expectations := 17;
                            unsuccessful_expectations := 1 |}], false).
Proof. split; vm_compute; reflexivity. Qed.

(** ** The validator's boundary *)

(** C4 (as the code has it).  The validator returns a boolean on every
    input.  Whenever building the frame or validating raises, it returns
    [False] and logs the error; a one-dimensional input raises; and
    [True] is returned only when the body ran to its end. *)
Theorem validators_fail_closed (self : DataQualityChecker) (X : ndarray) (y : vector) :
  (∀ l e, validate_inference_body self X = (l, Raise e) →
          validate_inference_data self X = (l ++ [ErrorValidation e], false)) ∧
  (∀ l e, validate_training_body self X y = (l, Raise e) →
          validate_training_data self X y = (l ++ [ErrorValidation e], false)) ∧
  (shape1 X = Raise IndexError →
     validate_inference_data self X = ([ErrorValidation IndexError], false) ∧
     validate_training_data self X y = ([ErrorValidation IndexError], false)) ∧
  ((validate_inference_data self X).2 = true →
     ∃ l, validate_inference_body self X = (l, Return true)) ∧
  ((validate_training_data self X y).2 = true →
     ∃ l, validate_training_body self X y = (l, Return true)).
Proof.
  unfold validate_inference_data, validate_training_data.
  split; [by intros l e ->|]. split; [by intros l e ->|].
  split; [|split].
  - intros Hshape. unfold validate_inference_body, validate_training_body.
    by rewrite Hshape.
  - destruct (validate_inference_body self X) as [l [e|[|]]]; by eauto.
  - destruct (validate_training_body self X y) as [l [e|[|]]]; by eauto.
Qed.

Lemma validators_fail_closed_witness :
  validate_inference_data default_checker sample_ragged
    = ([ErrorValidation IndexError], false) ∧
  validate_training_data default_checker sample_ragged sample_target
    = ([ErrorValidation IndexError], false).
Proof.
  apply (validators_fail_closed default_checker sample_ragged sample_target).
  reflexivity.
Defined.

(** C4 (as stated) fails: the value returned for a ragged batch, where
    the body raises, is the value returned for a well-formed batch with
    an out-of-range cell, where validation ran and failed.  The returned
    value holds no error detail; the error is in the log alone. *)
Lemma validator_error_is_not_in_the_result :
  validate_inference_body default_checker sample_ragged = ([], Raise IndexError) ∧
  (∃ l, validate_inference_body default_checker sample_out_of_range = (l, Return false)) ∧
  (validate_inference_data default_checker sample_ragged).2
  = (validate_inference_data default_checker sample_out_of_range).2.
Proof.
  split; [reflexivity|]. split; [|vm_compute; reflexivity].
  eexists. vm_compute. reflexivity.
Qed.

(** ** Reference store *)

(** The stand-in file library reads back what was written. *)
Lemma flat_store_reads_back : reads_back_what_was_written flat_store.
Proof.
  intros fs fs' file arr [= <-]. cbn. rewrite lookup_insert_eq.
  split; [by apply bool_decide_eq_true_2|done].
Qed.

(** A save that logs success has written the array, under the name
    numpy gives the file, and leaves the state that write left. *)
Lemma save_succeeded {FS : Type} (io : file_library FS) (data : ndarray)
    (path : string) (fs : FS) :
  (save_reference_data io data path fs).1 = [InfoReferenceSaved path] →
  ∃ fs1, write_npy io fs1 (npy_file path) data
         = (Return tt, (save_reference_data io data path fs).2).
Proof.
  unfold save_reference_data, np_save.
  destruct (os_makedirs io fs (os_path_dirname path)) as [[e|[]] fs1]; [done|].
  destruct (write_npy io fs1 (npy_file path) data) as [[e|[]] fs2] eqn:Hw; [done|].
  intros _. by exists fs1.
Qed.

(** Loading from a file that has just been written. *)
Lemma load_written {FS : Type} (io : file_library FS) (fs fs' : FS) (file : string)
    (arr : ndarray) :
  reads_back_what_was_written io →
  write_npy io fs file arr = (Return tt, fs') →
  load_reference_data io file fs' = ([InfoReferenceLoaded file], Some arr).
Proof.
  intros Hio Hw. destruct (Hio _ _ _ _ Hw) as [Hex Hrd].
  unfold load_reference_data, os_path_exists, np_load. by rewrite Hex, Hrd.
Qed.

(** C9 (as the code has it).  For every array and every path that ends
    in [.npy]: if the save meets no I/O error, so that it logs the array
    as saved, and the file library reads back what was written, loading
    from the same path returns that array. *)
Theorem reference_round_trip {FS : Type} (io : file_library FS) (fs : FS)
    (X : ndarray) (path : string) :
  reads_back_what_was_written io →
  endswith path ".npy" = true →
  (save_reference_data io X path fs).1 = [InfoReferenceSaved path] →
  load_reference_data io path (save_reference_data io X path fs).2
  = ([InfoReferenceLoaded path], Some X).
Proof.
  intros Hio Hext (fs1 & Hw)%save_succeeded.
  unfold npy_file in Hw. rewrite Hext in Hw.
  by apply (load_written io fs1).
Qed.

Lemma reference_round_trip_witness :
  load_reference_data flat_store "./model/reference_data.npy"
    (save_reference_data flat_store sample_batch "./model/reference_data.npy" ∅).2
  = ([InfoReferenceLoaded "./model/reference_data.npy"], Some sample_batch).
Proof.
  apply (reference_round_trip flat_store ∅ sample_batch "./model/reference_data.npy").
  - exact flat_store_reads_back.
  - reflexivity.
  - reflexivity.
Defined.

(** C9 (as stated) fails on two kinds of path, on a file library that
    reads back what was written.  A path without the [.npy] extension is
    saved under the extended name, and loading from the path itself
    finds nothing; a path without a directory part makes the creation
    of the directory raise, and nothing is saved. *)
Lemma reference_round_trip_fails :
  reads_back_what_was_written flat_store
  ∧ load_reference_data flat_store "model/reference_data"
      (save_reference_data flat_store sample_batch "model/reference_data" ∅).2
    = ([WarnReferenceNotFound "model/reference_data"], None)
  ∧ save_reference_data flat_store sample_batch "reference_data.npy" ∅
    = ([ErrorSaveReference FileNotFoundError], ∅)
  ∧ load_reference_data flat_store "reference_data.npy"
      (save_reference_data flat_store sample_batch "reference_data.npy" ∅).2
    = ([WarnReferenceNotFound "reference_data.npy"], None).
Proof.
  split; [exact flat_store_reads_back|].
  repeat split; vm_compute; reflexivity.
Qed.


(** * Further properties *)

(** ** The detector under any library *)

(** Either every Kolmogorov-Smirnov call of the loop returns, or there
    is a first one that raises. *)
Lemma ks_outcomes_cases stats reference_data current_data (d : nat) :
  (∀ i, i < d → ∃ r, ks_outcome stats reference_data current_data i = Return r)
  ∨ ∃ i e, i < d ∧ ks_outcome stats reference_data current_data i = Raise e.
Proof.
  induction d as [|d [IH|(i & e & Hi & He)]].
  - left. intros i Hi. lia.
  - destruct (ks_outcome stats reference_data current_data d) as [e|r] eqn:Hd.
    + right. exists d, e. split; [lia|done].
    + left. intros i Hi. destruct (decide (i = d)) as [->|Hne]; [by eauto|].
      apply IH. lia.
  - right. exists i, e. split; [lia|done].
Qed.

Lemma for_each_returns_then_raises {S : Type} (body : nat → S → Py S)
    (w : nat → list log_record) (f : nat → S → S)
    (idx1 idx2 : list nat) (i : nat) (e : exn) (st : S) :
  (∀ j st', j ∈ idx1 → body j st' = (w j, inr (f j st'))) →
  (∀ st', body i st' = ([], inl e)) →
  for_each body (idx1 ++ i :: idx2) st = (concat (map w idx1), inl e).
Proof.
  intros H1 Hi. revert st. induction idx1 as [|j idx1 IH]; intros st; cbn.
  - unfold mbind, Py_bind, py_bind. by rewrite Hi.
  - unfold mbind, Py_bind, py_bind.
    rewrite (H1 j st) by constructor.
    rewrite IH; [done|]. intros k st' Hk. apply H1. by constructor.
Qed.

(** X1.  Whatever the library, [drift_detected] is true only with
    evidence: some feature has an entry in the report whose p-value is
    strictly below 0.05, and the warning for it is in the log. *)
Theorem drift_reported_only_with_evidence (stats : scipy_stats)
    (reference_data current_data : ndarray) :
  (detect_data_drift stats reference_data current_data).2.1 = true →
  ∃ i r,
    (detect_data_drift stats reference_data current_data).2.2 !! feature_name i = Some r ∧
    PrimFloat.ltb (ks_pvalue r) 0.05 = true ∧
    WarnDrift i (ks_pvalue r) ∈ (detect_data_drift stats reference_data current_data).1.
Proof.
  destruct reference_data as [dt0 data|dt0 d rows0]; [done|].
  set (ref := Array2 dt0 d rows0).
  destruct (ks_outcomes_cases stats ref current_data d) as [Hall|(i & e & Hi & He)].
  - rewrite (detect_returns stats ref current_data d) by done. cbn [fst snd].
    intros (i & Hi & Hf)%drifted_iff.
    exists i, (expected_report stats ref current_data i
                 (ks_or_nan stats ref current_data i)).
    split; [by rewrite lookup_reports_seq, decide_True|].
    unfold expected_report.
    destruct (anderson_or_none stats ref current_data i) as [[a c] g]. cbn.
    split; [done|]. apply warning_logged.
    split; [apply elem_of_seq; lia|done].
  - destruct (detect_raises stats ref current_data d i) as (l & e' & ->); by eauto.
Qed.

Lemma drift_reported_only_with_evidence_witness :
  ∃ i r,
    (detect_data_drift stub_stats (Array2 float64 2 sample_reference)
       (Array2 float64 2 sample_current)).2.2 !! feature_name i = Some r ∧
    PrimFloat.ltb (ks_pvalue r) 0.05 = true ∧
    WarnDrift i (ks_pvalue r)
      ∈ (detect_data_drift stub_stats (Array2 float64 2 sample_reference)
           (Array2 float64 2 sample_current)).1.
Proof.
  apply (drift_reported_only_with_evidence stub_stats).
  reflexivity.
Defined.

(** X2.  When the Kolmogorov-Smirnov step of feature [i] raises (the
    column is missing, or the routine fails) after the steps of the
    features before it returned, the log holds the warnings of the
    drifted features among those, then the error, and the call returns
    [(False, {})]: drift found before the failure is not reported. *)
Theorem detect_discards_partial_results (stats : scipy_stats)
    (reference_data current_data : ndarray) (d i : nat) (e : exn)
    (ks : nat → float * float) :
  shape1 reference_data = Return d →
  i < d →
  (∀ j, j < i → ks_outcome stats reference_data current_data j = Return (ks j)) →
  ks_outcome stats reference_data current_data i = Raise e →
  detect_data_drift stats reference_data current_data
  = (concat (map (λ j, expected_warning j (ks j)) (seq 0 i)) ++ [ErrorDrift e],
     (false, ∅)).
Proof.
  intros Hd Hi Hbefore He. unfold detect_data_drift, detect_body.
  rewrite Hd. unfold lift, Return. unfold mbind at 1, Py_bind, py_bind.
  assert (∃ k, d = i + S k) as [k ->] by (exists (d - S i); lia).
  rewrite seq_app. cbn [seq Nat.add].
  rewrite (for_each_returns_then_raises _
             (λ j, expected_warning j (ks j))
             (step_state stats reference_data current_data ks) _ _ i e); [done| |].
  - intros j st Hj%elem_of_seq.
    rewrite (drift_step_returns stats reference_data current_data j (ks j) st)
      by (apply Hbefore; lia).
    done.
  - intros st. by apply drift_step_raises.
Qed.

Lemma detect_discards_partial_results_witness :
  detect_data_drift stub_stats (Array2 float64 2 sample_reference)
                               (Array2 float64 1 sample_narrow)
  = ([WarnDrift 0 0.01%float; ErrorDrift IndexError], (false, ∅)).
Proof.
  apply (detect_discards_partial_results stub_stats
           (Array2 float64 2 sample_reference) (Array2 float64 1 sample_narrow)
           2 1 IndexError (λ _, (1%float, 0.01%float))).
  - reflexivity.
  - lia.
  - intros j Hj. assert (j = 0) as -> by lia. reflexivity.
  - reflexivity.
Defined.

Lemma size_reports_seq stats reference_data current_data
    (ks : nat → float * float) (d : nat) :
  size (foldl (λ m' j,
                 <[feature_name j :=
                     expected_report stats reference_data current_data j (ks j)]> m')
              (∅ : gmap string feature_report) (seq 0 d)) = d.
Proof.
  induction d as [|d IH]; [done|].
  rewrite seq_S, foldl_app. cbn [foldl Nat.add].
  rewrite map_size_insert_None; [by rewrite IH|].
  rewrite lookup_reports_seq. by rewrite decide_False by lia.
Qed.

(** X3.  When the Kolmogorov-Smirnov step of every feature returns, the
    report has exactly one entry per feature of the reference: [d]
    entries, under the keys [feature_0] to [feature_{d-1}]. *)
Theorem report_has_one_entry_per_feature (stats : scipy_stats)
    (reference_data current_data : ndarray) (d : nat) :
  shape1 reference_data = Return d →
  (∀ i, i < d → ∃ r, ks_outcome stats reference_data current_data i = Return r) →
  size (detect_data_drift stats reference_data current_data).2.2 = d ∧
  ∀ k, is_Some ((detect_data_drift stats reference_data current_data).2.2 !! k)
       ↔ ∃ i, i < d ∧ k = feature_name i.
Proof.
  intros Hd Hall. rewrite (detect_returns stats reference_data current_data d) by done.
  cbn [snd]. split; [apply size_reports_seq|].
  intros k. split; [apply dom_reports_seq|].
  intros (i & Hi & ->). rewrite lookup_reports_seq, decide_True by done. by eauto.
Qed.

Lemma report_has_one_entry_per_feature_witness :
  size (detect_data_drift stub_stats (Array2 float64 2 sample_reference)
          (Array2 float64 3 sample_wide)).2.2 = 2 ∧
  ∀ k, is_Some ((detect_data_drift stub_stats (Array2 float64 2 sample_reference)
                   (Array2 float64 3 sample_wide)).2.2 !! k)
       ↔ ∃ i, i < 2 ∧ k = feature_name i.
Proof.
  apply (report_has_one_entry_per_feature stub_stats
           (Array2 float64 2 sample_reference) (Array2 float64 3 sample_wide) 2).
  - reflexivity.
  - intros i Hi. rewrite ks_outcome_array2 by lia.
    apply stub_defined_on_nonempty; by apply cells_nonempty.
Defined.

(** X4.  The threshold is strict, and NaN never counts as drift: when
    every feature's p-value is 0.05 exactly, or NaN, nothing is logged
    and [drift_detected] is false.  The mocked library of
    [test_detect_data_drift] returns 0.05 for every column. *)
Theorem pvalue_at_threshold_is_not_drift (stats : scipy_stats)
    (reference_data current_data : ndarray) (d : nat) :
  shape1 reference_data = Return d →
  (∀ i, i < d → ∃ s p,
      ks_outcome stats reference_data current_data i = Return (s, p) ∧
      (p = 0.05%float ∨ PrimFloat.is_nan p = true)) →
  (detect_data_drift stats reference_data current_data).1 = [] ∧
  (detect_data_drift stats reference_data current_data).2.1 = false.
Proof.
  intros Hd Hall.
  assert (Hnot : ∀ i, i < d →
            flagged (ks_or_nan stats reference_data current_data i).2 = false).
  { intros i Hi. destruct (Hall i Hi) as (s & p & Hsp & Hp).
    unfold ks_or_nan. rewrite Hsp. cbn. destruct Hp as [->|Hnan]; [done|].
    unfold flagged, PrimFloat.is_nan in *. apply negb_true_iff in Hnan.
    destruct (PrimFloat.ltb p drift_threshold) eqn:Hlt; [|done].
    exfalso. revert Hnan Hlt. unfold drift_threshold.
    rewrite FloatAxioms.eqb_spec, FloatAxioms.ltb_spec.
    unfold SpecFloat.SFeqb, SpecFloat.SFltb.
    destruct (FloatOps.Prim2SF p) as [sg|sg| |sg m ex]; cbn; try done.
    - by destruct sg.
    - by rewrite Z.compare_refl, Pos.compare_cont_refl; destruct sg. }
  rewrite (detect_returns stats reference_data current_data d).
  2: done.
  2:{ intros i Hi. destruct (Hall i Hi) as (s & p & Hsp & _). by eauto. }
  cbn [fst snd]. split.
  - apply concat_nil_Forall, Forall_map, Forall_forall.
    intros i Hi%elem_of_seq. unfold expected_warning. by rewrite Hnot by lia.
  - apply not_true_is_false. rewrite drifted_iff.
    intros (i & Hi & Hf). by rewrite Hnot in Hf.
Qed.

Lemma pvalue_at_threshold_is_not_drift_witness :
  (detect_data_drift test_mock_stats (Array2 float64 2 sample_reference)
     (Array2 float64 2 sample_current)).1 = [] ∧
  (detect_data_drift test_mock_stats (Array2 float64 2 sample_reference)
     (Array2 float64 2 sample_current)).2.1 = false.
Proof.
  apply (pvalue_at_threshold_is_not_drift test_mock_stats
           (Array2 float64 2 sample_reference) (Array2 float64 2 sample_current) 2).
  - reflexivity.
  - intros i Hi. exists 0.1%float, 0.05%float. split; [|by left].
    by rewrite ks_outcome_array2.
Defined.


(** ** The validator, exactly *)

Lemma cell_okb_spec (x : float) : cell_okb x = true ↔ cell_ok x.
Proof.
  unfold cell_okb, cell_ok. rewrite andb_true_iff, negb_true_iff. done.
Qed.

Lemma forallb_cell_okb (l : list float) :
  forallb (λ x, negb (is_null x)) l
  && forallb (λ x, is_null x || value_between (-10) 10 x) l
  = forallb cell_okb l.
Proof.
  induction l as [|x l IH]; [done|]. cbn. rewrite <- IH. unfold cell_okb.
  destruct (is_null x), (value_between (-10) 10 x); cbn; try done.
  all: by rewrite andb_false_r.
Qed.

(** What the four constraints of a feature column amount to. *)
Lemma feature_constraints_eval df c (v : vector) :
  c ∈ column_names df →
  get_column df c = Return v →
  forallb (expectation_succeeds df) (feature_constraints c)
  = bool_decide (v_dtype v = float64) && forallb cell_okb (v_values v).
Proof.
  intros Hin Hget. unfold feature_constraints. cbn [forallb].
  rewrite succeeds_column_exists, bool_decide_eq_true_2 by done.
  unfold expectation_succeeds.
  rewrite run_column_of_type, run_column_not_null, run_column_between, Hget.
  cbn -[forallb]. rewrite andb_true_r, forallb_cell_okb.
  f_equal. by destruct (v_dtype v).
Qed.

Lemma new_DataFrame_features (dt : dtype) (d : nat) (rows : list (list float)) :
  new_DataFrame (Array2 dt d rows) (map feature_name (seq 0 d))
  = Return {| index_len := length rows;
              columns := zip (map feature_name (seq 0 d))
                           (map (λ i, {| v_dtype := dt; v_values := cells rows i |})
                                (seq 0 d)) |}.
Proof.
  unfold new_DataFrame. by rewrite decide_True by (by rewrite length_map, length_seq).
Qed.

(** The verdict of inference validation on a batch of four columns. *)
Lemma validate_inference_width_four (dt : dtype) (rows : list (list float)) :
  (validate_inference_data default_checker (Array2 dt 4 rows)).2
  = bool_decide (1 ≤ Z.of_nat (length rows) ≤ 10000)%Z
    && (bool_decide (dt = float64)
        && (forallb cell_okb (cells rows 0) && forallb cell_okb (cells rows 1)
            && forallb cell_okb (cells rows 2) && forallb cell_okb (cells rows 3))).
Proof.
  unfold validate_inference_data, validate_inference_body.
  cbn [shape1]. unfold_py. cbv beta iota.
  change (new_DataFrame (Array2 dt 4 rows) (map feature_name (seq 0 4)))
    with (inr (A:=exn)
            {| index_len := length rows;
               columns :=
                 [("feature_0", {| v_dtype := dt; v_values := cells rows 0 |});
                  ("feature_1", {| v_dtype := dt; v_values := cells rows 1 |});
                  ("feature_2", {| v_dtype := dt; v_values := cells rows 2 |});
                  ("feature_3", {| v_dtype := dt; v_values := cells rows 3 |})] |}).
  match goal with |- context [inr (A:=exn) ?f] => set (df := f) end.
  cbv beta iota.
  assert (success (validate df (expectation_suite default_checker))
          = bool_decide (1 ≤ Z.of_nat (length rows) ≤ 10000)%Z
            && (bool_decide (dt = float64)
                && (forallb cell_okb (cells rows 0) && forallb cell_okb (cells rows 1)
                    && forallb cell_okb (cells rows 2)
                    && forallb cell_okb (cells rows 3)))) as ->.
  { rewrite success_validate.
    change (expectation_suite default_checker) with _create_expectation_suite.
    rewrite create_expectation_suite_unfold. cbn [expectations].
    rewrite !forallb_app. cbn [forallb].
    rewrite succeeds_row_count, succeeds_columns_match.
    rewrite (bool_decide_eq_true_2 (column_names df = _)) by done.
    rewrite (feature_constraints_eval df "feature_0"
               {| v_dtype := dt; v_values := cells rows 0 |}),
      (feature_constraints_eval df "feature_1"
         {| v_dtype := dt; v_values := cells rows 1 |}),
      (feature_constraints_eval df "feature_2"
         {| v_dtype := dt; v_values := cells rows 2 |}),
      (feature_constraints_eval df "feature_3"
         {| v_dtype := dt; v_values := cells rows 3 |});
      try done; try (apply list_elem_of_In; cbn; tauto).
    cbn [v_dtype v_values index_len df].
    destruct (bool_decide (1 ≤ Z.of_nat (length rows) ≤ 10000)%Z),
      (bool_decide (dt = float64)),
      (forallb cell_okb (cells rows 0)), (forallb cell_okb (cells rows 1)),
      (forallb cell_okb (cells rows 2)), (forallb cell_okb (cells rows 3)); done. }
  by destruct (_ && _).
Qed.

(** A batch whose width is not four fails the ordered column list. *)
Lemma validate_inference_other_width (dt : dtype) (d : nat) (rows : list (list float)) :
  d ≠ 4 → (validate_inference_data default_checker (Array2 dt d rows)).2 = false.
Proof.
  intros Hd. unfold validate_inference_data, validate_inference_body.
  cbn [shape1]. unfold_py. cbv beta iota.
  rewrite new_DataFrame_features. unfold Return. cbv beta iota.
  match goal with |- context [validate ?f _] => set (df := f) end.
  assert (success (validate df (expectation_suite default_checker)) = false) as ->;
    [|done].
  rewrite success_validate.
  change (expectation_suite default_checker) with _create_expectation_suite.
  rewrite create_expectation_suite_unfold. cbn [expectations app forallb].
  rewrite succeeds_columns_match, bool_decide_eq_false_2; [by rewrite andb_false_r|].
  intros Hcols. apply (f_equal length) in Hcols.
  unfold column_names, df in Hcols. cbn in Hcols.
  rewrite length_map, length_zip, !length_map, length_seq in Hcols. lia.
Qed.

(** X5.  Inference validation of the default checker returns [True]
    exactly on a two-dimensional float64 batch of four columns with
    between 1 and 10000 rows, all of whose cells are not null and lie
    in [-10, 10]. *)
Theorem validate_inference_accepts_iff (X : ndarray) :
  (validate_inference_data default_checker X).2 = true
  ↔ ∃ rows, X = Array2 float64 4 rows ∧
            (1 ≤ Z.of_nat (length rows) ≤ 10000)%Z ∧
            ∀ i, i < 4 → Forall cell_ok (cells rows i).
Proof.
  split.
  - destruct X as [dt data|dt d rows]; [done|].
    destruct (decide (d = 4)) as [->|Hd];
      [|by rewrite validate_inference_other_width].
    rewrite validate_inference_width_four, !andb_true_iff, !bool_decide_eq_true.
    intros (Hn & -> & [[[H0 H1] H2] H3]). exists rows.
    split; [done|]. split; [done|].
    intros i Hi. apply Forall_forall. intros x Hx%list_elem_of_In.
    apply cell_okb_spec.
    destruct i as [|[|[|[|i]]]]; [| | | |lia].
    + by apply (proj1 (forallb_forall _ _) H0).
    + by apply (proj1 (forallb_forall _ _) H1).
    + by apply (proj1 (forallb_forall _ _) H2).
    + by apply (proj1 (forallb_forall _ _) H3).
  - intros (rows & -> & Hn & Hcells).
    rewrite validate_inference_width_four, !andb_true_iff, !bool_decide_eq_true.
    assert (∀ i, i < 4 → forallb cell_okb (cells rows i) = true) as Hb.
    { intros i Hi. apply forallb_forall. intros x Hx%list_elem_of_In.
      apply cell_okb_spec.
      specialize (Hcells i Hi). rewrite Forall_forall in Hcells. by apply Hcells. }
    split; [done|]. split; [done|].
    repeat split; apply Hb; lia.
Qed.

(** Training validation logs one record and returns [False]. *)
Lemma training_validation_log (X : ndarray) (y : vector) :
  ∃ r, validate_training_data default_checker X y = ([r], false).
Proof.
  pose proof (validate_training_rejects_every_batch X y) as Hfalse.
  unfold validate_training_data, validate_training_body in *. unfold_py.
  destruct (shape1 X) as [e|d]; [by eexists|].
  destruct (new_DataFrame X _) as [e|df]; [by eexists|].
  destruct (set_item df "target" y) as [e|df']; [by eexists|].
  destruct (success (validate df' (expectation_suite default_checker)));
    [done|by eexists].
Qed.

(** X6.  Training validation of the default checker never passes: for
    every batch and target it returns [False], with a single log record
    that is either the error raised while building the frame or the
    warning that carries the statistics of a failed run. *)
Theorem training_validation_never_passes (X : ndarray) (y : vector) :
  (∃ e, validate_training_data default_checker X y = ([ErrorValidation e], false))
  ∨ (∃ st, validate_training_data default_checker X y = ([WarnTrainingFailed st], false)).
Proof.
  pose proof (validate_training_rejects_every_batch X y) as Hfalse.
  unfold validate_training_data, validate_training_body in *. unfold_py.
  destruct (shape1 X) as [e|d]; [left; by eexists|].
  destruct (new_DataFrame X _) as [e|df]; [left; by eexists|].
  destruct (set_item df "target" y) as [e|df']; [left; by eexists|].
  destruct (success (validate df' (expectation_suite default_checker)));
    [done|right; by eexists].
Qed.

(** ** The reference store, file by file *)

(** Without a separator in the path, its directory part is empty. *)
Lemma dirname_without_sep (path : string) :
  Forall (λ c, is_sep c = false) (String.list_ascii_of_string path) →
  os_path_dirname path = "".
Proof.
  intros Hno. unfold os_path_dirname.
  assert (drop_until_sep (reverse (String.list_ascii_of_string path)) = []) as ->; [|done].
  apply Forall_reverse in Hno.
  induction Hno as [|c l Hc Hl IH]; [done|]. cbn. by rewrite Hc.
Qed.

(** X9.  A path without a separator has no directory part, creating the
    directory raises, and the save writes nothing: the file system is
    unchanged and only the error is logged. *)
Theorem save_without_directory_writes_nothing {FS : Type} (io : file_library FS)
    (fs : FS) (X : ndarray) (path : string) :
  Forall (λ c, is_sep c = false) (String.list_ascii_of_string path) →
  save_reference_data io X path fs = ([ErrorSaveReference FileNotFoundError], fs).
Proof.
  intros Hno. unfold save_reference_data, os_makedirs.
  by rewrite dirname_without_sep, decide_True.
Qed.

Lemma save_without_directory_writes_nothing_witness :
  save_reference_data flat_store sample_batch "reference_data.npy" ∅
  = ([ErrorSaveReference FileNotFoundError], ∅).
Proof.
  apply (save_without_directory_writes_nothing flat_store ∅ sample_batch
           "reference_data.npy").
  repeat constructor.
Defined.

(** X10.  A path that does not end in [.npy] is saved under the path
    with [.npy] appended: if the save meets no I/O error, so that it
    logs the array as saved, and the file library reads back what was
    written, loading from the extended name returns the array. *)
Theorem save_appends_extension {FS : Type} (io : file_library FS) (fs : FS)
    (X : ndarray) (path : string) :
  reads_back_what_was_written io →
  endswith path ".npy" = false →
  (save_reference_data io X path fs).1 = [InfoReferenceSaved path] →
  load_reference_data io (path +:+ ".npy") (save_reference_data io X path fs).2
  = ([InfoReferenceLoaded (path +:+ ".npy")], Some X).
Proof.
  intros Hio Hext (fs1 & Hw)%save_succeeded.
  unfold npy_file in Hw. rewrite Hext in Hw.
  by apply (load_written io fs1).
Qed.

Lemma save_appends_extension_witness :
  load_reference_data flat_store "model/reference_data.npy"
    (save_reference_data flat_store sample_batch "model/reference_data" ∅).2
  = ([InfoReferenceLoaded "model/reference_data.npy"], Some sample_batch).
Proof.
  apply (save_appends_extension flat_store ∅ sample_batch "model/reference_data").
  - exact flat_store_reads_back.
  - reflexivity.
  - reflexivity.
Defined.


(** ** The training script *)

(** X11.  Whatever dataset is generated and whatever the rest of
    [main] would do, the training script stops at validation: the code
    after it is not reached, the file system is left as it was, and the
    exit status is 1.  On a two-dimensional dataset [main] returns
    [False] after logging that it aborts. *)
Theorem training_always_aborts (X : ndarray) (y : vector)
    (rest : Train.continuation) (fs : filesystem) :
  (∃ l, Train.script (X, y) rest fs = (l, 1%Z, fs)) ∧
  ∀ features, shape1 X = Return features →
    ∃ r, Train.main (X, y) rest fs
         = ([Train.Starting; Train.Checker InfoSuiteCreated;
             Train.Generated (shape0 X) features; Train.Checker r; Train.Aborting],
            Return false, fs).
Proof.
  unfold Train.script, Train.main. cbn [__init__].
  change {| reference_data_path := None;
            expectation_suite := _create_expectation_suite |} with default_checker.
  destruct (training_validation_log X y) as [r Hr].
  split.
  - destruct (shape1 X) as [e|d]; [by eexists|]. rewrite Hr. by eexists.
  - intros d ->. rewrite Hr. by exists r.
Qed.

(** ** The webhook relay *)

(** The trigger runs nothing without its configuration, and one command
    with it. *)
Lemma trigger_commands (lib : Webhook.library) (env : gmap string string)
    (payload : Webhook.json) :
  match Webhook.configured env "GITLAB_PROJECT_ID",
        Webhook.configured env "GITLAB_TRIGGER_TOKEN" with
  | Some project_id, Some trigger_token =>
      (Webhook.trigger_retrain_pipeline lib env payload).1.2
      = [Webhook.curl_command lib
           (Webhook.getenv env "GITLAB_URL" "https://gitlab.com")
           project_id trigger_token
           (Webhook.getenv env "GITLAB_BRANCH" "main") payload]
  | _, _ =>
      Webhook.trigger_retrain_pipeline lib env payload
      = ([Webhook.MissingConfiguration], [], false)
  end.
Proof.
  unfold Webhook.trigger_retrain_pipeline.
  destruct (Webhook.configured env "GITLAB_PROJECT_ID") as [project_id|]; [|done].
  destruct (Webhook.configured env "GITLAB_TRIGGER_TOKEN") as [trigger_token|]; [|done].
  destruct (Webhook.subprocess_run lib _) as [e|result]; [done|].
  by repeat case_decide.
Qed.

(** The trigger succeeds exactly when the command ran, exited with 0,
    and the last line of its stripped output is 201. *)
Lemma trigger_succeeds_iff (lib : Webhook.library) (env : gmap string string)
    (payload : Webhook.json) :
  (Webhook.trigger_retrain_pipeline lib env payload).2 = true
  ↔ ∃ cmd result,
      (Webhook.trigger_retrain_pipeline lib env payload).1.2 = [cmd] ∧
      Webhook.subprocess_run lib cmd = inr result ∧
      Webhook.returncode result = 0%Z ∧
      Webhook.http_code (Webhook.stdout result) = "201".
Proof.
  unfold Webhook.trigger_retrain_pipeline.
  destruct (Webhook.configured env "GITLAB_PROJECT_ID") as [project_id|];
    [|split; [done|by intros (? & ? & ? & _)]].
  destruct (Webhook.configured env "GITLAB_TRIGGER_TOKEN") as [trigger_token|];
    [|split; [done|by intros (? & ? & ? & _)]].
  destruct (Webhook.subprocess_run lib _) as [e|result] eqn:Hrun; cbn.
  - split; [done|]. intros (cmd & r & [= <-] & Hr & _). congruence.
  - repeat case_decide; cbn.
    + split; [by eauto 10|done].
    + split; [done|]. intros (cmd & r & [= <-] & Hr & _ & Hcode). congruence.
    + split; [done|]. intros (cmd & r & [= <-] & Hr & Hrc & _). congruence.
Qed.

(** X12.  The handler starts a pipeline for drift events only: if any
    command is run, the body was read and parsed into an object whose
    [event] member is the string [drift], project id and trigger token
    are set and not empty, and the one command run is the [curl] call
    for that project, with the object's [payload] member. *)
Theorem pipeline_runs_only_for_drift_events (lib : Webhook.library)
    (env : gmap string string) (req : Webhook.request) :
  Webhook.commands (Webhook.do_POST lib env req) ≠ [] →
  ∃ members payload project_id trigger_token,
    Webhook.read_document lib req = inr (Webhook.JObject members) ∧
    Webhook.get (Webhook.JObject members) "event" (Webhook.JString "")
      = inr (Webhook.JString "drift") ∧
    Webhook.get (Webhook.JObject members) "payload" (Webhook.JObject []) = inr payload ∧
    Webhook.configured env "GITLAB_PROJECT_ID" = Some project_id ∧
    Webhook.configured env "GITLAB_TRIGGER_TOKEN" = Some trigger_token ∧
    Webhook.commands (Webhook.do_POST lib env req)
    = [Webhook.curl_command lib
         (Webhook.getenv env "GITLAB_URL" "https://gitlab.com")
         project_id trigger_token
         (Webhook.getenv env "GITLAB_BRANCH" "main") payload].
Proof.
  unfold Webhook.do_POST.
  destruct (Webhook.read_document lib req) as [[]|data]; try done.
  destruct data as [| | | | |members]; try done.
  destruct (Webhook.get (Webhook.JObject members) "event" _) as [e|event] eqn:Hevent;
    [done|].
  destruct (Webhook.is_drift event) eqn:Hdrift; [|done].
  destruct event as [| | |s| |]; try done.
  apply bool_decide_eq_true in Hdrift as ->.
  destruct (Webhook.get (Webhook.JObject members) "payload" _) as [e|payload] eqn:Hpayload;
    [done|].
  pose proof (trigger_commands lib env payload) as Hcmd.
  destruct (Webhook.trigger_retrain_pipeline lib env payload) as [[l cmds] ok] eqn:Htrig.
  cbn [Webhook.commands]. intros Hne.
  destruct (Webhook.configured env "GITLAB_PROJECT_ID") as [project_id|];
    [|congruence].
  destruct (Webhook.configured env "GITLAB_TRIGGER_TOKEN") as [trigger_token|];
    [|congruence].
  cbn in Hcmd. exists members, payload, project_id, trigger_token.
  by repeat split.
Qed.

(** X13.  Every request gets one response, with status 200, 400 or 500,
    and the status is 200 exactly when a command was run, exited with 0,
    and the last line of its stripped output is 201. *)
Theorem webhook_answers_200_iff_pipeline_created (lib : Webhook.library)
    (env : gmap string string) (req : Webhook.request) :
  ∃ code body,
    Webhook.response (Webhook.do_POST lib env req) = Webhook.respond code body ∧
    (code = 200 ∨ code = 400 ∨ code = 500) ∧
    (code = 200 ↔
       ∃ cmd result,
         Webhook.commands (Webhook.do_POST lib env req) = [cmd] ∧
         Webhook.subprocess_run lib cmd = inr result ∧
         Webhook.returncode result = 0%Z ∧
         Webhook.http_code (Webhook.stdout result) = "201").
Proof.
  unfold Webhook.do_POST.
  assert (Hno : ∀ P : list string → Webhook.CompletedProcess → Prop,
            ¬ ∃ cmd result, ([] : list (list string)) = [cmd] ∧ P cmd result).
  { intros P (? & ? & ? & _). done. }
  destruct (Webhook.read_document lib req) as [[]|data];
    try (eexists _, _; split; [reflexivity|]; split; [by auto|];
         split; [done|by intros ?%Hno]).
  destruct (Webhook.get data "event" _) as [e|event];
    [eexists _, _; split; [reflexivity|]; split; [by auto|];
     split; [done|by intros ?%Hno]|].
  destruct (Webhook.is_drift event);
    [|eexists _, _; split; [reflexivity|]; split; [by auto|];
      split; [done|by intros ?%Hno]].
  destruct (Webhook.get data "payload" _) as [e|payload];
    [eexists _, _; split; [reflexivity|]; split; [by auto|];
     split; [done|by intros ?%Hno]|].
  pose proof (trigger_succeeds_iff lib env payload) as Hiff.
  destruct (Webhook.trigger_retrain_pipeline lib env payload) as [[l cmds] ok].
  cbn in Hiff |- *. destruct ok.
  - eexists 200, _. split; [reflexivity|]. split; [by auto|].
    split; [intros _; by apply Hiff|done].
  - eexists 500, _. split; [reflexivity|]. split; [by auto|].
    split; [done|]. intros H%Hiff. done.
Qed.

(** X14.  A body that is valid JSON but not an object is answered with
    500 and the internal-error document, not with 400, and runs no
    command. *)
Theorem non_object_document_is_internal_error (lib : Webhook.library)
    (env : gmap string string) (req : Webhook.request) (data : Webhook.json) :
  Webhook.read_document lib req = inr data →
  (∀ members, data ≠ Webhook.JObject members) →
  Webhook.do_POST lib env req = Webhook.internal_error Webhook.AttributeError.
Proof.
  intros Hread Hnot. unfold Webhook.do_POST. rewrite Hread.
  destruct data as [| | | | |members]; try done. by destruct (Hnot members).
Qed.


Lemma pipeline_runs_only_for_drift_events_witness :
  ∃ members payload project_id trigger_token,
    Webhook.read_document (stub_library "201") (sample_request "event")
      = inr (Webhook.JObject members) ∧
    Webhook.get (Webhook.JObject members) "event" (Webhook.JString "")
      = inr (Webhook.JString "drift") ∧
    Webhook.get (Webhook.JObject members) "payload" (Webhook.JObject []) = inr payload ∧
    Webhook.configured sample_env "GITLAB_PROJECT_ID" = Some project_id ∧
    Webhook.configured sample_env "GITLAB_TRIGGER_TOKEN" = Some trigger_token ∧
    Webhook.commands (Webhook.do_POST (stub_library "201") sample_env (sample_request "event"))
    = [Webhook.curl_command (stub_library "201")
         (Webhook.getenv sample_env "GITLAB_URL" "https://gitlab.com")
         project_id trigger_token
         (Webhook.getenv sample_env "GITLAB_BRANCH" "main") payload].
Proof.
  apply (pipeline_runs_only_for_drift_events (stub_library "201") sample_env
           (sample_request "event")).
  vm_compute. discriminate.
Defined.

Lemma non_object_document_is_internal_error_witness :
  Webhook.do_POST (stub_library "201") sample_env (sample_request "list")
  = Webhook.internal_error Webhook.AttributeError.
Proof.
  apply (non_object_document_is_internal_error (stub_library "201") sample_env
           (sample_request "list") (Webhook.JArray [])).
  - reflexivity.
  - discriminate.
Defined.

(** *** The status code in the command's output *)

Lemma newline_is_space (c : Ascii.ascii) :
  Webhook.is_newline c = true → Webhook.is_space c = true.
Proof. unfold Webhook.is_newline. by intros ->%bool_decide_eq_true. Qed.

Lemma lstrip_app_nonspace (l t : list Ascii.ascii) (c : Ascii.ascii) :
  Webhook.is_space c = false →
  Webhook.lstrip (l ++ c :: t) = Webhook.lstrip l ++ c :: t.
Proof.
  intros Hc. induction l as [|c0 l IH]; cbn; [by rewrite Hc|].
  by destruct (Webhook.is_space c0).
Qed.

Lemma strip_ends_nonspace (l : list Ascii.ascii) (c : Ascii.ascii) :
  Webhook.is_space c = false →
  Webhook.strip (l ++ [c]) = Webhook.lstrip (l ++ [c]).
Proof.
  intros Hc. unfold Webhook.strip.
  rewrite (lstrip_app_nonspace l [] c Hc), reverse_app, reverse_singleton.
  cbn [app Webhook.lstrip]. rewrite Hc.
  by rewrite reverse_cons, reverse_involutive.
Qed.

Lemma split_newline_nonempty (l : list Ascii.ascii) : Webhook.split_newline l ≠ [].
Proof.
  destruct l as [|c l]; cbn; [done|].
  destruct (Webhook.is_newline c); [done|].
  by destruct (Webhook.split_newline l).
Qed.

Lemma split_newline_none (b : list Ascii.ascii) :
  Forall (λ c, Webhook.is_newline c = false) b → Webhook.split_newline b = [b].
Proof.
  induction 1 as [|c b Hc Hb IH]; cbn; [done|]. by rewrite Hc, IH.
Qed.

(** Text without a newline, put after a text, goes to its last line. *)
Lemma split_newline_app (a b : list Ascii.ascii) :
  Forall (λ c, Webhook.is_newline c = false) b →
  Webhook.split_newline (a ++ b)
  = removelast (Webhook.split_newline a) ++ [List.last (Webhook.split_newline a) [] ++ b].
Proof.
  intros Hb. induction a as [|c a IH]; cbn [app].
  - by rewrite split_newline_none.
  - pose proof (split_newline_nonempty a) as Hne.
    cbn [Webhook.split_newline]. rewrite IH.
    destruct (Webhook.is_newline c).
    + destruct (Webhook.split_newline a) as [|p ps]; done.
    + destruct (Webhook.split_newline a) as [|p [|q qs]]; done.
Qed.

Lemma list_ascii_of_string_app (s t : string) :
  String.list_ascii_of_string (s +:+ t)
  = String.list_ascii_of_string s ++ String.list_ascii_of_string t.
Proof.
  induction s as [|c s IH]; [done|].
  change (String c s +:+ t) with (String c (s +:+ t)). cbn. by f_equal.
Qed.

(** X15.  The command asks [curl] to print the status code right after
    the response body.  When the body ends in a character that is not
    white space, the code is glued to the body's last line, the
    comparison with 201 fails, and the trigger reports failure although
    the command exited with 0 and the status was 201. *)
Theorem glued_status_code_is_failure (lib : Webhook.library) (env : gmap string string)
    (payload : Webhook.json) (project_id trigger_token : string)
    (result : Webhook.CompletedProcess) (body : string)
    (l : list Ascii.ascii) (c : Ascii.ascii) :
  Webhook.configured env "GITLAB_PROJECT_ID" = Some project_id →
  Webhook.configured env "GITLAB_TRIGGER_TOKEN" = Some trigger_token →
  Webhook.subprocess_run lib
    (Webhook.curl_command lib (Webhook.getenv env "GITLAB_URL" "https://gitlab.com")
       project_id trigger_token (Webhook.getenv env "GITLAB_BRANCH" "main") payload)
    = inr result →
  Webhook.returncode result = 0%Z →
  Webhook.stdout result = body +:+ "201" →
  String.list_ascii_of_string body = l ++ [c] →
  Webhook.is_space c = false →
  (Webhook.trigger_retrain_pipeline lib env payload).2 = false ∧
  Webhook.TriggerFailed (Webhook.http_code (Webhook.stdout result))
    ∈ (Webhook.trigger_retrain_pipeline lib env payload).1.1.
Proof.
  intros Hproject Htoken Hrun Hrc Hout Hbody Hc.
  assert (Hcode : Webhook.http_code (Webhook.stdout result) ≠ "201").
  { unfold Webhook.http_code, Webhook.response_lines. intros Heq.
    apply (f_equal String.list_ascii_of_string) in Heq.
    rewrite String.list_ascii_of_string_of_list_ascii in Heq.
    rewrite Hout, list_ascii_of_string_app, Hbody in Heq.
    change (String.list_ascii_of_string "201")
      with ([Ascii.ascii_of_nat 50; Ascii.ascii_of_nat 48] ++ [Ascii.ascii_of_nat 49])
      in Heq at 1.
    rewrite !app_assoc in Heq.
    rewrite (strip_ends_nonspace _ (Ascii.ascii_of_nat 49) eq_refl) in Heq.
    rewrite <- !app_assoc in Heq. cbn [app] in Heq.
    rewrite (lstrip_app_nonspace l _ c Hc) in Heq.
    rewrite split_newline_app in Heq.
    2:{ repeat constructor.
        destruct (Webhook.is_newline c) eqn:Hn; [|done].
        apply newline_is_space in Hn. congruence. }
    rewrite List.last_last in Heq. apply (f_equal length) in Heq.
    rewrite length_app in Heq. cbn in Heq. lia. }
  unfold Webhook.trigger_retrain_pipeline. rewrite Hproject, Htoken, Hrun.
  rewrite decide_True by done. rewrite decide_False by done. cbn.
  split; [done|]. apply list_elem_of_In. cbn. tauto.
Qed.

Lemma glued_status_code_is_failure_witness :
  (Webhook.trigger_retrain_pipeline (stub_library "{id: 7}201") sample_env sample_event).2
    = false ∧
  Webhook.TriggerFailed "{id: 7}201"
    ∈ (Webhook.trigger_retrain_pipeline (stub_library "{id: 7}201") sample_env
         sample_event).1.1.
Proof.
  apply (glued_status_code_is_failure (stub_library "{id: 7}201") sample_env sample_event
           "42" "secret"
           {| Webhook.returncode := 0; Webhook.stdout := "{id: 7}201";
              Webhook.stderr := "" |}
           "{id: 7}" (String.list_ascii_of_string "{id: 7") (Ascii.ascii_of_nat 125)).
  all: reflexivity.
Defined.

(** *** Configuration at start-up *)

(** X16.  The [GITLAB_BRANCH] variable of the environment is never used
    when [--branch] is not given: [main] overwrites it with the
    argument's default, and every pipeline is triggered on [main]. *)
Theorem branch_variable_is_overridden (args : Webhook.arguments)
    (env env' : gmap string string) :
  Webhook.branch args = None →
  Webhook.main args env = inr env' →
  env' !! "GITLAB_BRANCH" = Some "main" ∧
  Webhook.getenv env' "GITLAB_BRANCH" "main" = "main".
Proof.
  intros Hbranch Hmain. unfold Webhook.main in Hmain.
  case_decide; [|done]. injection Hmain as <-.
  unfold Webhook.getenv, Webhook.update_environment. rewrite Hbranch.
  set (env0 := Webhook.export "GITLAB_TRIGGER_TOKEN" _ _).
  unfold Webhook.export. cbn [default from_option].
  rewrite decide_False by done. by rewrite lookup_insert_eq.
Qed.

Lemma branch_variable_is_overridden_witness :
  Webhook.update_environment no_arguments sample_env !! "GITLAB_BRANCH" = Some "main" ∧
  Webhook.getenv (Webhook.update_environment no_arguments sample_env)
    "GITLAB_BRANCH" "main" = "main".
Proof.
  apply (branch_variable_is_overridden no_arguments sample_env).
  - reflexivity.
  - reflexivity.
Defined.

(** X17.  A server that [main] has started is configured: in the
    environment it leaves, the trigger never stops for a missing
    project id or token, and runs its one command for every payload. *)
Theorem started_server_is_configured (lib : Webhook.library) (args : Webhook.arguments)
    (env env' : gmap string string) (payload : Webhook.json) :
  Webhook.main args env = inr env' →
  ∃ cmd, (Webhook.trigger_retrain_pipeline lib env' payload).1.2 = [cmd].
Proof.
  intros Hmain. unfold Webhook.main in Hmain.
  case_decide as Hmissing; [|done]. injection Hmain as <-.
  set (env1 := Webhook.update_environment args env) in *.
  pose proof (trigger_commands lib env1 payload) as Hcmd.
  cbn [filter list_filter] in Hmissing.
  destruct (decide (Webhook.configured env1 "GITLAB_PROJECT_ID" = None)) as [|Hp];
    [done|].
  destruct (decide (Webhook.configured env1 "GITLAB_TRIGGER_TOKEN" = None)) as [|Ht];
    [done|].
  destruct (Webhook.configured env1 "GITLAB_PROJECT_ID") as [project_id|]; [|done].
  destruct (Webhook.configured env1 "GITLAB_TRIGGER_TOKEN") as [trigger_token|]; [|done].
  by eauto.
Qed.

Lemma started_server_is_configured_witness :
  ∃ cmd, (Webhook.trigger_retrain_pipeline (stub_library "201")
            (Webhook.update_environment no_arguments sample_env) sample_event).1.2 = [cmd].
Proof.
  apply (started_server_is_configured (stub_library "201") no_arguments sample_env).
  reflexivity.
Defined.


(** ** The inference service *)

Ltac solve_in :=
  rewrite list_elem_of_In, ?in_app_iff; cbn; intuition congruence.

Section ServiceFacts.
Context {P : Type} (svc : @App.service P).

(** The statistical check counts a drift event exactly when it finds
    drift. *)
Lemma statistical_check_metrics (X : ndarray) :
  (App.statistical_check svc X).1.2
  = if (App.statistical_check svc X).2 then [App.DriftEvent] else [].
Proof.
  unfold App.statistical_check.
  destruct (App.ref_data svc) as [reference|]; [|done].
  destruct (App.dq_checker svc); [|done].
  destruct (detect_data_drift _ _ _) as [l [[|] details]]; done.
Qed.

(** X18.  Validation is advisory: with the alibi detector disabled, a
    batch that fails validation is logged as such, predicted all the
    same, answered with the predictions, and counted as a 200. *)
Theorem invalid_batch_is_still_served (data : list (list float)) (method : string)
    (X : ndarray) (y_pred : list P) (checker : DataQualityChecker) :
  App.np_array svc data = Return X →
  App.dq_checker svc = Some checker →
  (validate_inference_data checker X).2 = false →
  App.model_predict svc X = Return y_pred →
  App.DRIFT_ENABLED svc = false →
  App.ValidationFailed ∈ App.log (App.predict svc data method) ∧
  App.answer (App.predict svc data method)
    = App.PredictResponse (map (App._pyify svc) y_pred) (App.model_version svc)
        (App.statistical_check svc X).2 ∧
  App.RequestCount "/predict" method "200" ∈ App.metrics (App.predict svc data method) ∧
  App.RequestCount "/predict" method "500" ∉ App.metrics (App.predict svc data method).
Proof.
  intros Hdata Hchecker Hinvalid Hpred Hoff.
  unfold Return in *. unfold App.predict, App.after_prediction.
  rewrite Hdata. cbv beta iota. rewrite Hpred. cbv beta iota. rewrite Hoff.
  cbv beta iota.
  pose proof (statistical_check_metrics X) as Hm.
  destruct (App.statistical_check svc X) as [[l m] stat_drift]. cbn in Hm |- *.
  split; [|split; [by destruct stat_drift|split]].
  - unfold App.validation_log. rewrite Hchecker.
    destruct (validate_inference_data checker X) as [lv valid]. cbn in Hinvalid.
    subst valid. solve_in.
  - solve_in.
  - rewrite Hm. destruct stat_drift; solve_in.
Qed.

(** X19.  Drift events are counted per detector, not per request: with
    the alibi detector enabled and answering, the counter is
    incremented once if it reports drift and once more if the
    statistical check does, and the response says drift when either
    does. *)
Theorem drift_event_counted_per_detector (data : list (list float)) (method : string)
    (X : ndarray) (y_pred : list P)
    (detector : ndarray → result App.alibi_prediction) (preds : App.alibi_prediction) :
  App.np_array svc data = Return X →
  App.model_predict svc X = Return y_pred →
  App.DRIFT_ENABLED svc = true →
  App.cd svc = Some detector →
  detector X = Return preds →
  length (filter (λ m, m = App.DriftEvent) (App.metrics (App.predict svc data method)))
    = (if decide (App.is_drift preds = 0%Z) then 0 else 1)
      + (if (App.statistical_check svc X).2 then 1 else 0) ∧
  App.answer (App.predict svc data method)
    = App.PredictResponse (map (App._pyify svc) y_pred) (App.model_version svc)
        (negb (bool_decide (App.is_drift preds = 0%Z))
         || (App.statistical_check svc X).2).
Proof.
  intros Hdata Hpred Hon Hcd Hdet.
  unfold Return in *. unfold App.predict, App.after_prediction.
  rewrite Hdata. cbv beta iota. rewrite Hpred. cbv beta iota. rewrite Hon, Hcd.
  cbv beta iota. rewrite Hdet. cbv beta iota.
  pose proof (statistical_check_metrics X) as Hm.
  destruct (App.statistical_check svc X) as [[l m] stat_drift]. cbn in Hm. subst m.
  destruct (decide (App.is_drift preds = 0%Z)) as [Hz|Hz].
  - rewrite bool_decide_eq_true_2 by done. by destruct stat_drift.
  - rewrite bool_decide_eq_false_2 by done. by destruct stat_drift.
Qed.

(** X20.  A request is counted once, as a 500 when building the array or
    predicting raised and as a 200 when it is answered; and not at all
    when the alibi detector raises, since that exception escapes the
    handler before the counter is reached. *)
Theorem request_counted_once_unless_escaped (data : list (list float)) (method : string) :
  match App.answer (App.predict svc data method) with
  | App.HTTPException code _ =>
      code = 500 ∧
      App.metrics (App.predict svc data method) = [App.RequestCount "/predict" method "500"]
  | App.PredictResponse _ _ _ =>
      filter (λ m, m ≠ App.DriftEvent) (App.metrics (App.predict svc data method))
      = [App.RequestCount "/predict" method "200"]
  | App.Escaped _ => App.metrics (App.predict svc data method) = []
  end.
Proof.
  unfold App.predict, App.after_prediction.
  destruct (App.np_array svc data) as [e|X]; [done|].
  destruct (App.model_predict svc X) as [e|y_pred]; [done|].
  pose proof (statistical_check_metrics X) as Hm.
  destruct (App.statistical_check svc X) as [[l m] stat_drift]. cbn in Hm. subst m.
  destruct (if App.DRIFT_ENABLED svc then App.cd svc else None) as [detector|].
  - destruct (detector X) as [e|preds]; [done|].
    case_decide; by destruct stat_drift.
  - by destruct stat_drift.
Qed.


End ServiceFacts.

Lemma invalid_batch_is_still_served_witness :
  App.ValidationFailed ∈ App.log (App.predict (stub_service false) [[15; 1]; [2; 2]]%float "POST") ∧
  App.answer (App.predict (stub_service false) [[15; 1]; [2; 2]]%float "POST")
    = App.PredictResponse (map (App._pyify (stub_service false)) [0; 0]%Z) "v1"
        (App.statistical_check (stub_service false)
           (Array2 float64 2 [[15; 1]; [2; 2]]%float)).2 ∧
  App.RequestCount "/predict" "POST" "200"
    ∈ App.metrics (App.predict (stub_service false) [[15; 1]; [2; 2]]%float "POST") ∧
  App.RequestCount "/predict" "POST" "500"
    ∉ App.metrics (App.predict (stub_service false) [[15; 1]; [2; 2]]%float "POST").
Proof.
  apply (invalid_batch_is_still_served (stub_service false) [[15; 1]; [2; 2]]%float "POST"
           (Array2 float64 2 [[15; 1]; [2; 2]]%float) [0; 0]%Z default_checker).
  all: reflexivity.
Defined.

Lemma drift_event_counted_per_detector_witness :
  length (filter (λ m, m = App.DriftEvent)
            (App.metrics (App.predict (stub_service true) sample_current "POST")))
    = 1 + (if (App.statistical_check (stub_service true)
                 (Array2 float64 2 sample_current)).2 then 1 else 0) ∧
  App.answer (App.predict (stub_service true) sample_current "POST")
    = App.PredictResponse (map (App._pyify (stub_service true)) [0; 0]%Z) "v1"
        (true || (App.statistical_check (stub_service true)
                    (Array2 float64 2 sample_current)).2).
Proof.
  apply (drift_event_counted_per_detector (stub_service true) sample_current "POST"
           (Array2 float64 2 sample_current) [0; 0]%Z
           (λ _, Return {| App.is_drift := 1; App.p_val := 0.01%float |})
           {| App.is_drift := 1; App.p_val := 0.01%float |}).
  all: reflexivity.
Defined.


(** ** From the service's notification to the pipeline *)

(** X22.  The document the inference service posts on drift, an object
    with [event] set to [drift] and the detector's output as
    [payload], is accepted by the webhook: with project id and trigger
    token configured, the handler logs the drift with that payload and
    runs the one [curl] command that carries it. *)
Theorem drift_event_triggers_pipeline (lib : Webhook.library) (env : gmap string string)
    (req : Webhook.request) (payload : Webhook.json) (project_id trigger_token : string) :
  Webhook.read_document lib req
    = inr (Webhook.JObject [("event", Webhook.JString "drift"); ("payload", payload)]) →
  Webhook.configured env "GITLAB_PROJECT_ID" = Some project_id →
  Webhook.configured env "GITLAB_TRIGGER_TOKEN" = Some trigger_token →
  Webhook.commands (Webhook.do_POST lib env req)
    = [Webhook.curl_command lib
         (Webhook.getenv env "GITLAB_URL" "https://gitlab.com")
         project_id trigger_token
         (Webhook.getenv env "GITLAB_BRANCH" "main") payload] ∧
  (∃ l, Webhook.log (Webhook.do_POST lib env req) = Webhook.DriftDetected payload :: l) ∧
  Webhook.response (Webhook.do_POST lib env req) ≠ Webhook.respond 400 Webhook.expected_drift_body ∧
  Webhook.response (Webhook.do_POST lib env req) ≠ Webhook.respond 400 Webhook.invalid_json_body.
Proof.
  intros Hread Hproject Htoken. unfold Webhook.do_POST. rewrite Hread.
  change (Webhook.get (Webhook.JObject _) "event" _) with
    (inr (B:=Webhook.json) (A:=Webhook.exc) (Webhook.JString "drift")).
  change (Webhook.get (Webhook.JObject _) "payload" _) with
    (inr (A:=Webhook.exc) payload).
  cbv beta iota. change (Webhook.is_drift (Webhook.JString "drift")) with true.
  cbv beta iota.
  pose proof (trigger_commands lib env payload) as Hcmd.
  rewrite Hproject, Htoken in Hcmd.
  destruct (Webhook.trigger_retrain_pipeline lib env payload) as [[l cmds] ok].
  cbn in Hcmd |- *. subst cmds.
  split; [done|]. split; [by eexists|]. by destruct ok.
Qed.

Lemma drift_event_triggers_pipeline_witness :
  Webhook.commands (Webhook.do_POST (stub_library "201") sample_env (sample_request "event"))
    = [Webhook.curl_command (stub_library "201")
         (Webhook.getenv sample_env "GITLAB_URL" "https://gitlab.com")
         "42" "secret"
         (Webhook.getenv sample_env "GITLAB_BRANCH" "main")
         (Webhook.JObject [("p_val", Webhook.JNumber "0.01")])] ∧
  (∃ l, Webhook.log (Webhook.do_POST (stub_library "201") sample_env (sample_request "event"))
        = Webhook.DriftDetected (Webhook.JObject [("p_val", Webhook.JNumber "0.01")]) :: l) ∧
  Webhook.response (Webhook.do_POST (stub_library "201") sample_env (sample_request "event"))
    ≠ Webhook.respond 400 Webhook.expected_drift_body ∧
  Webhook.response (Webhook.do_POST (stub_library "201") sample_env (sample_request "event"))
    ≠ Webhook.respond 400 Webhook.invalid_json_body.
Proof.
  apply (drift_event_triggers_pipeline (stub_library "201") sample_env
           (sample_request "event")
           (Webhook.JObject [("p_val", Webhook.JNumber "0.01")]) "42" "secret").
  all: reflexivity.
Defined.
